(** * cvision: frame sampling over a video-decoding backend

    A shallow embedding of [cvision/video/video_meta.py],
    [cvision/video/video_reader.py], [cvision/video/video.py],
    [cvision/io/video_reader.py] and [cvision/io/video.py].

    Python numbers are modelled as they are at run time: [int] as [Z],
    [float] as IEEE-754 binary64 through the Standard Library's
    [spec_float].  Exceptions are an error type, effects on the decoding
    backend and on the file system are explicit state. *)

From Stdlib Require Import ZArith QArith Qround Lia List Bool Sorted.
From Stdlib Require Import Floats.SpecFloat.
From stdpp Require Import gmap strings list fin_maps pretty.

Local Open Scope Z_scope.

(** ** Python numbers *)

Module PyNum.

(** binary64 *)
Definition prec : Z := 53.
Definition emax : Z := 1024.

Abbreviation float := spec_float.

Definition f64 (m e : Z) : float := binary_normalize prec emax m e false.

(** Python exceptions raised by the modelled code. *)
Inductive exn :=
| TypeError
| ValueError
| OverflowError
| ZeroDivisionError
| AttributeError
| NameError
| FileExistsError
| FileNotFoundError
| NotADirectoryError
| CvError
| RuntimeError (msg : string).

Inductive result (A : Type) :=
| Ok (a : A)
| Err (e : exn)
| Timeout.
Arguments Ok {A} a.
Arguments Err {A} e.
Arguments Timeout {A}.

Definition rbind {A B} (r : result A) (k : A -> result B) : result B :=
  match r with
  | Ok a => k a
  | Err e => Err e
  | Timeout => Timeout
  end.

(** A Python numeric value: [int] or [float]. *)
Inductive pynum :=
| PyInt (z : Z)
| PyFloat (f : float).

Definition is_finite (f : float) : bool :=
  match f with
  | S754_zero _ | S754_finite _ _ _ => true
  | _ => false
  end.

Definition is_zero (f : float) : bool :=
  match f with
  | S754_zero _ => true
  | _ => false
  end.

(** Strictly positive and finite. *)
Definition is_pos_finite (f : float) : bool :=
  match f with
  | S754_finite false _ _ => true
  | _ => false
  end.

(** [float(z)] for an [int] operand of a mixed operation: correctly
    rounded, [OverflowError] when out of range. *)
Definition float_of_int (z : Z) : result float :=
  let f := binary_normalize prec emax z 0 false in
  match f with
  | S754_infinity _ => Err OverflowError
  | _ => Ok f
  end.

Definition as_float (x : pynum) : result float :=
  match x with
  | PyInt z => float_of_int z
  | PyFloat f => Ok f
  end.

(** [int(x)]: truncation toward zero; [ValueError] on NaN,
    [OverflowError] on an infinity. *)
Definition int_of_float (f : float) : result Z :=
  match f with
  | S754_nan => Err ValueError
  | S754_infinity _ => Err OverflowError
  | S754_zero _ => Ok 0
  | S754_finite s m e => Ok (cond_Zopp s (Z.shiftl (Zpos m) e))
  end.

Definition py_int (x : pynum) : result Z :=
  match x with
  | PyInt z => Ok z
  | PyFloat f => int_of_float f
  end.

(** [a * b] *)
Definition py_mul (a b : pynum) : result pynum :=
  match a, b with
  | PyInt x, PyInt y => Ok (PyInt (x * y))
  | _, _ =>
      rbind (as_float a) (fun fa =>
      rbind (as_float b) (fun fb =>
      Ok (PyFloat (SFmul prec emax fa fb))))
  end.

(** [a + b] *)
Definition py_add (a b : pynum) : result pynum :=
  match a, b with
  | PyInt x, PyInt y => Ok (PyInt (x + y))
  | _, _ =>
      rbind (as_float a) (fun fa =>
      rbind (as_float b) (fun fb =>
      Ok (PyFloat (SFadd prec emax fa fb))))
  end.

(** [a / b]: true division, [ZeroDivisionError] when the divisor is a
    zero (of either sign, and before the operands are looked at
    further). *)
Definition py_truediv (a b : pynum) : result pynum :=
  rbind (as_float a) (fun fa =>
  rbind (as_float b) (fun fb =>
  if is_zero fb then Err ZeroDivisionError
  else Ok (PyFloat (SFdiv prec emax fa fb)))).

(** [a > 0] *)
Definition py_gt0 (a : pynum) : bool :=
  match a with
  | PyInt z => 0 <? z
  | PyFloat f => SFltb (S754_zero false) f
  end.

(** [range(start, stop, step)]: CPython's length formula, then the
    arithmetic progression.  [ValueError] on a zero step. *)
Definition range_length (start stop step : Z) : Z :=
  if (0 <? step) && (start <? stop) then (stop - start - 1) / step + 1
  else if (step <? 0) && (stop <? start) then (start - stop - 1) / (- step) + 1
  else 0.

Definition py_range (start stop step : Z) : result (list Z) :=
  if step =? 0 then Err ValueError
  else Ok (map (fun k : nat => start + Z.of_nat k * step)
               (seq 0 (Z.to_nat (range_length start stop step)))).

(** The errors the arithmetic above can raise. *)
Definition numeric_error (e : exn) : Prop :=
  e = ValueError \/ e = OverflowError \/ e = ZeroDivisionError.

(** The exact value of a finite float, and the mathematical floor. *)
Definition SF2Q (f : float) : Q :=
  match f with
  | S754_finite s m e =>
      let q := match e with
               | Z0 => inject_Z (Zpos m)
               | Zpos p => inject_Z (Zpos m * 2 ^ Zpos p)
               | Zneg p => Qmake (Zpos m) (2 ^ p)%positive
               end in
      if s then Qopp q else q
  | _ => 0%Q
  end.

Definition SFfloor (f : float) : Z := Qfloor (SF2Q f).

End PyNum.

(** ** State, exceptions and the decoding backend *)

Module Model.
Import PyNum.

(** A state monad whose state survives a raised exception, as the
    mutated Python objects do. *)
Definition M (S A : Type) : Type := S -> result A * S.

Definition ret {S A} (a : A) : M S A := fun s => (Ok a, s).
Definition raise {S A} (e : exn) : M S A := fun s => (Err e, s).
Definition bind {S A B} (m : M S A) (k : A -> M S B) : M S B :=
  fun s =>
    match m s with
    | (Ok a, s') => k a s'
    | (Err e, s') => (Err e, s')
    | (Timeout, s') => (Timeout, s')
    end.
Definition lift {S A} (r : result A) : M S A := fun s => (r, s).

Declare Scope py_scope.
Delimit Scope py_scope with py.
Notation "x <- m ;; k" := (bind m (fun x => k))
  (at level 100, m at next level, right associativity) : py_scope.
Notation "m ;;; k" := (bind m (fun _ => k))
  (at level 100, right associativity) : py_scope.
Local Open Scope py_scope.

(** A path is the sequence of its components below the root; a [str]
    path and a [pathlib.Path] carry the same components. *)
Definition path : Type := list string.

Inductive pathlike :=
| PStr (p : path)
| PPath (p : path).

(** [str(p)], [p.as_posix()], [Path(p)]: the components. *)
Definition parts (p : pathlike) : path :=
  match p with PStr q | PPath q => q end.

Definition posix (p : path) : string := String.concat "/" p.

Inductive cap_prop :=
| CAP_PROP_POS_MSEC
| CAP_PROP_POS_FRAMES
| CAP_PROP_FPS
| CAP_PROP_FRAME_COUNT
| CAP_PROP_FORMAT
| CAP_PROP_FOURCC
| CAP_PROP_FRAME_WIDTH
| CAP_PROP_FRAME_HEIGHT.

Inductive node (Blob : Type) :=
| Dir
| File (b : Blob).
Arguments Dir {Blob}.
Arguments File {Blob} b.

(** The OpenCV collaborators: [cv2.VideoCapture] and the encoder
    behind [cv2.imwrite].  Nothing is assumed about them. *)
Class Backend := {
  Frame : Type;
  Blob : Type;
  Cap : Type;
  cv_open : gmap path (node Blob) -> path -> Cap;
  cv_isOpened : Cap -> bool;
  cv_read : Cap -> option Frame * Cap;
  cv_get : cap_prop -> Cap -> float;
  cv_set : cap_prop -> pynum -> Cap -> Cap;
  cv_release : Cap -> Cap;
  cv_imencode : string -> Frame -> result Blob
}.

Section WithBackend.
Context `{B : Backend}.

Abbreviation FS := (gmap path (node Blob)).

(** Calls made to the collaborators, oldest first. *)
Inductive event :=
| EOpen (p : path)
| EIsOpened
| ERead (fr : option Frame)
| EGet (k : cap_prop)
| ESet (k : cap_prop) (v : pynum)
| ERelease
| EImwrite (p : path) (f : Frame)
| EPrint (e : exn).

Definition is_backend_call (e : event) : bool :=
  match e with
  | EOpen _ | EIsOpened | ERead _ | EGet _ | ESet _ _ | ERelease => true
  | _ => false
  end.

Record World := { fs : FS; log : list event }.

Definition w_append (evs : list event) (w : World) : World :=
  {| fs := fs w; log := log w ++ evs |}.

(** *** File system *)

Definition fs_exists (f : FS) (p : path) : bool :=
  match p with
  | [] => true
  | _ => bool_decide (is_Some (f !! p))
  end.

Definition fs_is_dir (f : FS) (p : path) : bool :=
  match p with
  | [] => true
  | _ => match f !! p with Some Dir => true | _ => false end
  end.

Definition parent (p : path) : path := removelast p.

(** [os.mkdir(p)] *)
Definition os_mkdir (f : FS) (p : path) : result FS :=
  if fs_exists f p then Err FileExistsError
  else if fs_is_dir f (parent p) then Ok (<[p := Dir]> f)
  else if fs_exists f (parent p) then Err NotADirectoryError
  else Err FileNotFoundError.

(** [Path.mkdir(parents=False, exist_ok=True)] *)
Definition mkdir_exist_ok (f : FS) (p : path) : result FS :=
  match os_mkdir f p with
  | Ok f' => Ok f'
  | Err FileNotFoundError => Err FileNotFoundError
  | Err e => if fs_is_dir f p then Ok f else Err e
  | Timeout => Timeout
  end.

(** [Path.mkdir(parents=True, exist_ok=True)]; [n] is the number of
    components of [p], the recursion is on the parent. *)
Fixpoint mkdir_parents (n : nat) (f : FS) (p : path) : result FS :=
  match os_mkdir f p with
  | Ok f' => Ok f'
  | Err FileNotFoundError =>
      match n with
      | O => Err FileNotFoundError
      | S n' =>
          rbind (mkdir_parents n' f (parent p)) (fun f1 =>
          mkdir_exist_ok f1 p)
      end
  | Err e => if fs_is_dir f p then Ok f else Err e
  | Timeout => Timeout
  end.

Definition Path_mkdir (p : path) : M World unit :=
  fun w =>
    match mkdir_parents (length p) (fs w) p with
    | Ok f' => (Ok tt, {| fs := f'; log := log w |})
    | Err e => (Err e, w)
    | Timeout => (Timeout, w)
    end.

(** [cv2.imwrite(filename, frame)]: the file is written when the
    encoder accepts it and the place is writable; the returned flag
    is what OpenCV reports. *)
Definition imwrite (p : path) (f : Frame) : M World bool :=
  fun w =>
    let w1 := w_append [EImwrite p f] w in
    match cv_imencode (List.last p ""%string) f with
    | Ok b =>
        if fs_is_dir (fs w1) (parent p) && negb (fs_is_dir (fs w1) p)
        then (Ok true, {| fs := <[p := File b]> (fs w1); log := log w1 |})
        else (Ok false, w1)
    | Err e => (Err e, w1)
    | Timeout => (Timeout, w1)
    end.




(** *** cvision/video/video_meta.py *)

Record VideoMetaData := {
  fps : float;
  frame_count : Z;
  duration : pynum;
  format : float;
  fourcc : Z;
  width : Z;
  height : Z
}.

Definition w_emit (e : event) : M World unit :=
  fun w => (Ok tt, w_append [e] w).

Definition VideoCapture (p : path) : M World Cap :=
  fun w => (Ok (cv_open (fs w) p), w_append [EOpen p] w).

Definition get_of (c : Cap) (k : cap_prop) : M World float :=
  fun w => (Ok (cv_get k c), w_append [EGet k] w).

Definition from_path (p : path) : M World VideoMetaData :=
  cap <- VideoCapture p ;;
  fps <- get_of cap CAP_PROP_FPS ;;
  fc <- get_of cap CAP_PROP_FRAME_COUNT ;;
  frame_count <- lift (int_of_float fc) ;;
  duration <- lift (py_truediv (PyInt frame_count) (PyFloat fps)) ;;
  format <- get_of cap CAP_PROP_FORMAT ;;
  fcc <- get_of cap CAP_PROP_FOURCC ;;
  fourcc <- lift (int_of_float fcc) ;;
  wd <- get_of cap CAP_PROP_FRAME_WIDTH ;;
  width <- lift (int_of_float wd) ;;
  ht <- get_of cap CAP_PROP_FRAME_HEIGHT ;;
  height <- lift (int_of_float ht) ;;
  w_emit ERelease ;;;
  ret {| fps := fps; frame_count := frame_count; duration := duration;
         format := format; fourcc := fourcc; width := width;
         height := height |}.

(** *** cvision/video/video_reader.py *)

Record VideoReader := {
  path_ : path;
  interval : option pynum;
  start_time : pynum;
  metadata : VideoMetaData;
  cap : option Cap
}.

Definition set_cap (c : option Cap) (r : VideoReader) : VideoReader :=
  {| path_ := path_ r; interval := interval r; start_time := start_time r;
     metadata := metadata r; cap := c |}.

(** The state of a method call: [self] and the world. *)
Definition RS : Type := VideoReader * World.

Definition in_world {A} (m : M World A) : M RS A :=
  fun '(r, w) => let '(x, w') := m w in (x, (r, w')).

Definition self : M RS VideoReader := fun s => (Ok (fst s), s).

(** [self.cap.<method>]: [AttributeError] when there is no handle. *)
Definition on_cap {A} (e : Cap -> event) (f : Cap -> A * Cap) : M RS A :=
  fun '(r, w) =>
    match cap r with
    | Some c =>
        let '(a, c') := f c in
        (Ok a, (set_cap (Some c') r, w_append [e c] w))
    | None => (Err AttributeError, (r, w))
    end.

Definition cap_isOpened : M RS bool :=
  on_cap (fun _ => EIsOpened) (fun c => (cv_isOpened c, c)).
Definition cap_read : M RS (option Frame) :=
  on_cap (fun c => ERead (fst (cv_read c))) cv_read.
Definition cap_get (k : cap_prop) : M RS float :=
  on_cap (fun _ => EGet k) (fun c => (cv_get k c, c)).
Definition cap_set (k : cap_prop) (v : pynum) : M RS unit :=
  on_cap (fun _ => ESet k v) (fun c => (tt, cv_set k v c)).
Definition cap_release : M RS unit :=
  on_cap (fun _ => ERelease) (fun c => (tt, cv_release c)).

Definition VideoReader_init (p : pathlike) (interval : option pynum)
    (start_time : pynum) : M World VideoReader :=
  let path := parts p in
  md <- from_path path ;;
  ret {| path_ := path; interval := interval; start_time := start_time;
         metadata := md; cap := None |}.

Definition enter : M RS unit :=
  fun '(r, w) =>
    let c := cv_open (fs w) (path_ r) in
    let s1 := (set_cap (Some c) r, w_append [EOpen (path_ r)] w) in
    if py_gt0 (start_time r) then
      (ms <- lift (py_mul (start_time r) (PyInt 1000)) ;;
       cap_set CAP_PROP_POS_MSEC ms) s1
    else (Ok tt, s1).

(** [__exit__] returns [None]: the flag is its truth value. *)
Definition exit (exc : option exn) : M RS bool :=
  (fun '(r, w) =>
     match cap r with
     | Some _ => cap_release (r, w)
     | None => (Ok tt, (r, w))
     end) ;;;
  match exc with
  | Some e => in_world (w_emit (EPrint e)) ;;; ret false
  | None => ret false
  end.

Definition get_steps (r : VideoReader) : result Z :=
  match interval r with
  | None => Err TypeError
  | Some i => rbind (py_mul i (PyFloat (fps (metadata r)))) py_int
  end.

Fixpoint extract_loop (ids : list Z) (frames : list Frame)
    : M RS (list Frame) :=
  match ids with
  | [] => ret frames
  | frame_id :: ids' =>
      cap_set CAP_PROP_POS_FRAMES (PyInt frame_id) ;;;
      fr <- cap_read ;;
      match fr with
      | None => ret frames
      | Some frame => extract_loop ids' (frames ++ [frame])
      end
  end.

Definition extract_frames : M RS (list Frame) :=
  r <- self ;;
  steps <- lift (get_steps r) ;;
  ids <- lift (py_range 0 (frame_count (metadata r)) steps) ;;
  frames <- extract_loop ids [] ;;
  cap_release ;;;
  ret frames.

(** The frame indices a run seeks to, read off its calls. *)
Definition sought_frames (evs : list event) : list Z :=
  flat_map (fun e => match e with
                     | ESet CAP_PROP_POS_FRAMES (PyInt z) => [z]
                     | _ => []
                     end) evs.

(** The calls of one loop iteration on [frame_id]. *)
Definition visit_events (fr : option Frame) (frame_id : Z) : list event :=
  [ESet CAP_PROP_POS_FRAMES (PyInt frame_id); ERead fr].

(** The frames read and the image files written by a run, read off its
    calls. *)
Definition reads (evs : list event) : list Frame :=
  flat_map (fun e => match e with
                     | ERead (Some f) => [f]
                     | _ => []
                     end) evs.

Definition writes (evs : list event) : list (path * Frame) :=
  flat_map (fun e => match e with
                     | EImwrite p f => [(p, f)]
                     | _ => []
                     end) evs.

(** The candidate indices [0, step, 2*step, ...] below [count]:
    [ceil(count / step)] of them. *)
Definition candidates (count step : Z) : list Z :=
  map (fun k : nat => Z.of_nat k * step)
      (seq 0 (Z.to_nat ((count + step - 1) / step))).

(** What one run of the loop over [ids] did: the calls made (a seek and
    a read per index visited, the frame read being kept), the indices
    visited, a prefix of [ids], and how the run ended: every read gave a
    frame and all of [ids] was visited, or the read at the last index
    visited gave none. *)
Definition loop_outcome (ids : list Z) (fr : list Frame) (visited : list Z)
    (evs : list event) : Prop :=
  evs = concat (zip_with (fun i f => visit_events (Some f) i)
                         (take (length fr) visited) fr)
        ++ flat_map (visit_events None) (drop (length fr) visited)
  /\ visited `prefix_of` ids
  /\ (length fr = length visited /\ visited = ids
      \/ length visited = S (length fr)).

(** The generator object: not started, suspended at its [yield], or
    finished. *)
Inductive gen_state := GenCreated | GenSuspended | GenClosed.

Inductive next_result (A : Type) :=
| Yielded (a : A)
| StopIteration.
Arguments Yielded {A} a.
Arguments StopIteration {A}.

(** From the loop test to the next [yield] or to the end. *)
Definition gen_loop : M RS (next_result Frame * gen_state) :=
  opened <- cap_isOpened ;;
  if opened : bool then
    fr <- cap_read ;;
    match fr with
    | None => ret (StopIteration, GenClosed)
    | Some frame => ret (Yielded frame, GenSuspended)
    end
  else ret (StopIteration, GenClosed).

(** The statements after the [yield]. *)
Definition gen_resume : M RS unit :=
  r <- self ;;
  match interval r with
  | None => ret tt
  | Some _ =>
      steps <- lift (get_steps r) ;;
      pos <- cap_get CAP_PROP_POS_FRAMES ;;
      target <- lift (py_add (PyFloat pos) (PyInt steps)) ;;
      cap_set CAP_PROP_POS_FRAMES target
  end.

(** One [next()] on the generator. *)
Definition gen_next (g : gen_state) : M RS (next_result Frame * gen_state) :=
  match g with
  | GenCreated => gen_loop
  | GenSuspended => gen_resume ;;; gen_loop
  | GenClosed => ret (StopIteration, GenClosed)
  end.

(** One frame read on the handle [c] right after the calls [evs]: what
    a pull that gets as far as [self.cap.read()] returns and leaves. *)
Definition read_frame (r : VideoReader) (c : Cap) (evs : list event)
    (w : World) : result (next_result Frame * gen_state) * RS :=
  (Ok (match fst (cv_read c) with
       | Some frame => (Yielded frame, GenSuspended)
       | None => (StopIteration, GenClosed)
       end),
   (set_cap (Some (snd (cv_read c))) r,
    w_append (evs ++ [EIsOpened; ERead (fst (cv_read c))]) w)).

(** The consumer [list(reader.generator())]: pulls until the generator
    stops; [fuel] bounds the pulls. *)
Fixpoint gen_list (fuel : nat) (g : gen_state) : M RS (list Frame) :=
  match fuel with
  | O => fun s => (Timeout, s)
  | S fuel' =>
      x <- gen_next g ;;
      match x with
      | (StopIteration, _) => ret []
      | (Yielded frame, g') =>
          rest <- gen_list fuel' g' ;;
          ret (frame :: rest)
      end
  end.


(** *** The [with] statement *)

Definition with_reader {A} (mk : M World VideoReader) (body : M RS A)
    : M World (option A) :=
  fun w =>
    match mk w with
    | (Ok r, w1) =>
        match enter (r, w1) with
        | (Ok _, s2) =>
            match body s2 with
            | (Ok a, s3) =>
                match exit None s3 with
                | (Ok _, s4) => (Ok (Some a), snd s4)
                | (Err e, s4) => (Err e, snd s4)
                | (Timeout, s4) => (Timeout, snd s4)
                end
            | (Err e, s3) =>
                match exit (Some e) s3 with
                | (Ok true, s4) => (Ok None, snd s4)
                | (Ok false, s4) => (Err e, snd s4)
                | (Err e', s4) => (Err e', snd s4)
                | (Timeout, s4) => (Timeout, snd s4)
                end
            | (Timeout, s3) => (Timeout, snd s3)
            end
        | (Err e, s2) => (Err e, snd s2)
        | (Timeout, s2) => (Timeout, snd s2)
        end
    | (Err e, w1) => (Err e, w1)
    | (Timeout, w1) => (Timeout, w1)
    end.

(** *** cvision/video/video.py *)

Inductive paths_arg :=
| OnePath (p : pathlike)
| PathList (l : list pathlike).

Record Video := { paths : list pathlike }.

Definition Video_init (a : paths_arg) : Video :=
  match a with
  | OnePath p => {| paths := [p] |}
  | PathList l => {| paths := l |}
  end.

Definition frame_file (output_dir : path) (index : nat)
    (img_format : string) : path :=
  output_dir ++ [(pretty index ++ "." ++ img_format)%string].


(** [for index, frame in enumerate(reader.generator())]; the loop may
    not end, [fuel] bounds the pulls. *)
Fixpoint save_loop (fuel : nat) (output_dir : path) (img_format : string)
    (index : nat) (g : gen_state) : M RS unit :=
  match fuel with
  | O => fun s => (Timeout, s)
  | S fuel' =>
      x <- gen_next g ;;
      match x with
      | (StopIteration, _) => ret tt
      | (Yielded frame, g') =>
          in_world (imwrite (frame_file output_dir index img_format) frame) ;;;
          save_loop fuel' output_dir img_format (S index) g'
      end
  end.

Fixpoint save_paths (fuel : nat) (ps : list pathlike) (output_dir : path)
    (interval : option pynum) (img_format : string) : M World unit :=
  match ps with
  | [] => ret tt
  | p :: ps' =>
      with_reader (VideoReader_init p interval (PyInt 0))
                  (save_loop fuel output_dir img_format 0 GenCreated) ;;;
      save_paths fuel ps' output_dir interval img_format
  end.

Definition save_frames (fuel : nat) (v : Video) (output_dir : pathlike)
    (interval : option pynum) (img_format : string) : M World unit :=
  let output_dir := parts output_dir in
  Path_mkdir output_dir ;;;
  save_paths fuel (paths v) output_dir interval img_format.

Fixpoint extract_paths (ps : list pathlike) (interval : option pynum)
    (result : list (pathlike * list Frame))
    : M World (list (pathlike * list Frame)) :=
  match ps with
  | [] => ret result
  | p :: ps' =>
      x <- with_reader (VideoReader_init p interval (PyInt 0)) extract_frames ;;
      match x with
      | Some frames => extract_paths ps' interval (result ++ [(p, frames)])
      | None => raise NameError
      end
  end.

Definition Video_extract_frames (v : Video) (interval : option pynum)
    : M World (list (pathlike * list Frame)) :=
  extract_paths (paths v) interval [].

(** *** cvision/io/video_reader.py *)

Record IoVideoReader := {
  io_path : path;
  io_cap : option Cap
}.

Definition IoRS : Type := IoVideoReader * World.

Definition IoVideoReader_init (p : path) : IoVideoReader :=
  {| io_path := p; io_cap := None |}.

Definition io_enter : M IoRS unit :=
  fun '(r, w) =>
    (Ok tt, ({| io_path := io_path r; io_cap := Some (cv_open (fs w) (io_path r)) |},
             w_append [EOpen (io_path r)] w)).

Definition io_exit (exc : option exn) : M IoRS bool :=
  fun '(r, w) =>
    let '(r1, w1) :=
      match io_cap r with
      | Some c => ({| io_path := io_path r; io_cap := Some (cv_release c) |},
                   w_append [ERelease] w)
      | None => (r, w)
      end in
    match exc with
    | Some e => (Ok false, (r1, w_append [EPrint e] w1))
    | None => (Ok false, (r1, w1))
    end.

(** [__next__]: the value returned is the frame, or [None] when the
    function falls off its end. *)
Definition io_next : M IoRS (next_result (option Frame)) :=
  fun '(r, w) =>
    match io_cap r with
    | Some c =>
        let '(fr, c') := cv_read c in
        let s' := ({| io_path := io_path r; io_cap := Some c' |},
                   w_append [ERead fr] w) in
        match fr with
        | Some frame => (Ok (Yielded (Some frame)), s')
        | None => (Ok (Yielded None), s')
        end
    | None => (Err AttributeError, (r, w))
    end.

(** [n] successive [next()] calls, collecting what they return. *)
Fixpoint io_pulls (n : nat) : M IoRS (list (next_result (option Frame))) :=
  match n with
  | O => ret []
  | S n' => x <- io_next ;; xs <- io_pulls n' ;; ret (x :: xs)
  end.

(** *** cvision/io/video.py

    [cvision/io/video_meta.py] is imported by the package but is not
    among the sources: its [VideoMetaData.from_path] is the parameter
    [io_from_path]; only the fields [fps] and [frame_count] are read. *)

Record IoVideo := {
  io_vpath : path;
  io_metadata : VideoMetaData
}.

Definition IoVideo_init (io_from_path : path -> M World VideoMetaData)
    (p : pathlike) : M World IoVideo :=
  let path := parts p in
  fun w =>
    if negb (fs_exists (fs w) path)
    then (Err (RuntimeError ("File not found: " ++ posix path)), w)
    else (md <- io_from_path path ;;
          ret {| io_vpath := path; io_metadata := md |}) w.

Definition io_get_steps (v : IoVideo) (stepsize : option pynum) : result Z :=
  match stepsize with
  | None => Ok 1
  | Some s => rbind (py_mul s (PyFloat (fps (io_metadata v)))) py_int
  end.

(** [__len__] and [get_metadata] *)
Definition VideoReader_len (r : VideoReader) : Z := frame_count (metadata r).
Definition IoVideo_len (v : IoVideo) : Z := frame_count (io_metadata v).
Definition IoVideo_get_metadata (v : IoVideo) : VideoMetaData := io_metadata v.

(** [reader.cap.<method>] on the io reader. *)
Definition io_on_cap {A} (e : Cap -> event) (f : Cap -> A * Cap) : M IoRS A :=
  fun '(r, w) =>
    match io_cap r with
    | Some c =>
        let '(a, c') := f c in
        (Ok a, ({| io_path := io_path r; io_cap := Some c' |},
                w_append [e c] w))
    | None => (Err AttributeError, (r, w))
    end.

Definition io_in_world {A} (m : M World A) : M IoRS A :=
  fun '(r, w) => let '(x, w') := m w in (x, (r, w')).

(** [with VideoReader(path) as reader: body] *)
Definition io_with {A} (p : path) (body : M IoRS A) : M World (option A) :=
  fun w =>
    match io_enter (IoVideoReader_init p, w) with
    | (Ok _, s2) =>
        match body s2 with
        | (Ok a, s3) =>
            match io_exit None s3 with
            | (Ok _, s4) => (Ok (Some a), snd s4)
            | (Err e, s4) => (Err e, snd s4)
            | (Timeout, s4) => (Timeout, snd s4)
            end
        | (Err e, s3) =>
            match io_exit (Some e) s3 with
            | (Ok true, s4) => (Ok None, snd s4)
            | (Ok false, s4) => (Err e, snd s4)
            | (Err e', s4) => (Err e', snd s4)
            | (Timeout, s4) => (Timeout, snd s4)
            end
        | (Timeout, s3) => (Timeout, snd s3)
        end
    | (Err e, s2) => (Err e, snd s2)
    | (Timeout, s2) => (Timeout, snd s2)
    end.

Fixpoint io_extract_loop (ids : list Z) (frames : list Frame)
    : M IoRS (list Frame) :=
  match ids with
  | [] => ret frames
  | frame_id :: ids' =>
      io_on_cap (fun _ => ESet CAP_PROP_POS_FRAMES (PyInt frame_id))
                (fun c => (tt, cv_set CAP_PROP_POS_FRAMES (PyInt frame_id) c)) ;;;
      fr <- io_on_cap (fun c => ERead (fst (cv_read c))) cv_read ;;
      match fr with
      | None => ret frames
      | Some frame => io_extract_loop ids' (frames ++ [frame])
      end
  end.

(** [io.Video.extract_frames].  [frames] is bound before the [with]
    statement; in the body it is still empty wherever an exception can
    be raised, which is what is returned were [__exit__] to swallow
    one. *)
Definition IoVideo_extract_frames (v : IoVideo) (stepsize : option pynum)
    : M World (list Frame) :=
  steps <- lift (io_get_steps v stepsize) ;;
  x <- io_with (io_vpath v)
         (ids <- lift (py_range 0 (frame_count (io_metadata v)) steps) ;;
          io_extract_loop ids []) ;;
  match x with
  | Some frames => ret frames
  | None => ret []
  end.

(** [os.mkdir] inside the handler of [os.makedirs] and of [Path.mkdir]:
    an [OSError] is dropped when the directory is there. *)
Definition mkdir_or_isdir (f : FS) (p : path) : result FS :=
  match os_mkdir f p with
  | Ok f' => Ok f'
  | Err e => if fs_is_dir f p then Ok f else Err e
  | Timeout => Timeout
  end.

(** [os.makedirs(p, exist_ok=True)]; [n] is the number of components of
    [p]. *)
Fixpoint os_makedirs (n : nat) (f : FS) (p : path) : result FS :=
  match n with
  | O => mkdir_or_isdir f p
  | S n' =>
      if negb (fs_exists f (parent p)) then
        match os_makedirs n' f (parent p) with
        | Ok f1 => mkdir_or_isdir f1 p
        | Err FileExistsError => mkdir_or_isdir f p
        | Err e => Err e
        | Timeout => Timeout
        end
      else mkdir_or_isdir f p
  end.

Definition makedirs (p : path) : M World unit :=
  fun w =>
    match os_makedirs (length p) (fs w) p with
    | Ok f' => (Ok tt, {| fs := f'; log := log w |})
    | Err e => (Err e, w)
    | Timeout => (Timeout, w)
    end.

(** [for index, frame in enumerate(reader)] in [io.Video.save_frames].
    What [cv2.imwrite] does when it is handed [None] is left open: it is
    the parameter [imwrite_none]. *)
Fixpoint io_save_loop (imwrite_none : path -> M World bool) (fuel : nat)
    (output_dir : path) (img_format : string) (index : nat) : M IoRS unit :=
  match fuel with
  | O => fun s => (Timeout, s)
  | S fuel' =>
      x <- io_next ;;
      match x with
      | StopIteration => ret tt
      | Yielded fr =>
          io_in_world
            (match fr with
             | Some frame => imwrite (frame_file output_dir index img_format) frame
             | None => imwrite_none (frame_file output_dir index img_format)
             end) ;;;
          io_save_loop imwrite_none fuel' output_dir img_format (S index)
      end
  end.

Definition IoVideo_save_frames (imwrite_none : path -> M World bool)
    (fuel : nat) (v : IoVideo) (output_dir : pathlike) (img_format : string)
    : M World unit :=
  let output_dir := parts output_dir in
  makedirs output_dir ;;;
  io_with (io_vpath v) (io_save_loop imwrite_none fuel output_dir img_format 0) ;;;
  ret tt.

(** *** Vocabulary of the properties *)

(** The frames of the leading indices of [ids] that can be read. *)
Fixpoint leading_frames (frame_at : Z -> option Frame) (ids : list Z)
    : list Frame :=
  match ids with
  | [] => []
  | i :: ids' =>
      match frame_at i with
      | Some f => f :: leading_frames frame_at ids'
      | None => []
      end
  end.

Definition is_open (e : event) : bool :=
  match e with EOpen _ => true | _ => false end.

Definition is_release (e : event) : bool :=
  match e with ERelease => true | _ => false end.

Definition is_seek (e : event) : bool :=
  match e with ESet _ _ => true | _ => false end.

Definition count_of (p : event -> bool) (evs : list event) : nat :=
  length (List.filter p evs).

(** Every entry of the file system lies in a directory, and the root is
    not an entry. *)
Definition wf_fs (f : FS) : Prop :=
  f !! ([] : path) = None
  /\ forall p, is_Some (f !! p) -> fs_is_dir f (parent p) = true.

(** The calls [from_path] makes when nothing fails. *)
Definition from_path_calls_ok (p : path) : list event :=
  [EOpen p; EGet CAP_PROP_FPS; EGet CAP_PROP_FRAME_COUNT; EGet CAP_PROP_FORMAT;
   EGet CAP_PROP_FOURCC; EGet CAP_PROP_FRAME_WIDTH; EGet CAP_PROP_FRAME_HEIGHT;
   ERelease].

(** Handles of one video, described by [I]: seeks and reads stay among
    them, and on them a read that follows a seek to [i] gives the frame
    of index [i]. *)
Definition seekable_on (I : Cap -> Prop) (frame_at : Z -> option Frame) : Prop :=
  (forall c k v, I c -> I (cv_set k v c))
  /\ (forall c, I c -> I (snd (cv_read c)))
  /\ (forall c i, I c ->
        fst (cv_read (cv_set CAP_PROP_POS_FRAMES (PyInt i) c)) = frame_at i).

(** A stream that runs out: each frame read brings the handle closer to
    its end. *)
Definition drains (mu : Cap -> nat) : Prop :=
  forall c, is_Some (fst (cv_read c)) -> (mu (snd (cv_read c)) < mu c)%nat.

(** *** What [save_frames] is to leave behind *)









End WithBackend.

Arguments Yielded {A} a.
Arguments StopIteration {A}.

End Model.

(** ** A reference backend

    A video file is its frame rate and its decodable frames; frame [i]
    is read at position [i] and a read advances the position by one.
    Frames are numbers, so that distinct frames can be told apart. *)

Module Ref.
Import PyNum Model.

Inductive blob :=
| BVideo (rate : float) (frames : list nat)
| BImage (name : string) (frame : nat).

Record handle := {
  c_rate : float;
  c_frames : list nat;
  c_pos : Z;
  c_open : bool
}.

Definition closed : handle :=
  {| c_rate := S754_zero false; c_frames := []; c_pos := 0; c_open := false |}.

Definition seek (z : Z) (c : handle) : handle :=
  {| c_rate := c_rate c; c_frames := c_frames c; c_pos := Z.max 0 z;
     c_open := c_open c |}.

Definition open (f : gmap path (node blob)) (p : path) : handle :=
  match f !! p with
  | Some (File (BVideo rate frames)) =>
      {| c_rate := rate; c_frames := frames; c_pos := 0; c_open := true |}
  | _ => closed
  end.

Definition read (c : handle) : option nat * handle :=
  if c_open c then
    match nth_error (c_frames c) (Z.to_nat (c_pos c)) with
    | Some f => (Some f, seek (c_pos c + 1) c)
    | None => (None, c)
    end
  else (None, c).

Definition get (k : cap_prop) (c : handle) : float :=
  if c_open c then
    match k with
    | CAP_PROP_FPS => c_rate c
    | CAP_PROP_FRAME_COUNT => f64 (Z.of_nat (length (c_frames c))) 0
    | CAP_PROP_POS_FRAMES => f64 (c_pos c) 0
    | _ => S754_zero false
    end
  else S754_zero false.

Definition set (k : cap_prop) (v : pynum) (c : handle) : handle :=
  match k with
  | CAP_PROP_POS_FRAMES =>
      match py_int v with
      | Ok z => seek z c
      | _ => c
      end
  | CAP_PROP_POS_MSEC =>
      match rbind (py_mul v (PyFloat (c_rate c))) (fun x =>
            rbind (py_truediv x (PyInt 1000)) py_int) with
      | Ok z => seek z c
      | _ => c
      end
  | _ => c
  end.

Definition release (c : handle) : handle :=
  {| c_rate := c_rate c; c_frames := c_frames c; c_pos := c_pos c;
     c_open := false |}.

#[export] Instance backend : Backend := {|
  Frame := nat;
  Blob := blob;
  Cap := handle;
  cv_open := open;
  cv_isOpened := c_open;
  cv_read := read;
  cv_get := get;
  cv_set := set;
  cv_release := release;
  cv_imencode := fun name f => Ok (BImage name f)
|}.

(** The same files read through a container header that announces
    [count] frames, whatever can be decoded: [CAP_PROP_FRAME_COUNT] is
    what the header says. *)
Definition announcing (count : Z) : Backend := {|
  Frame := nat;
  Blob := blob;
  Cap := handle;
  cv_open := open;
  cv_isOpened := c_open;
  cv_read := read;
  cv_get := fun k c =>
    match k with
    | CAP_PROP_FRAME_COUNT =>
        if c_open c then f64 count 0 else S754_zero false
    | _ => get k c
    end;
  cv_set := set;
  cv_release := release;
  cv_imencode := fun name f => Ok (BImage name f)
|}.

(** A file system holding one video at [clip.mp4]. *)
Definition clip : path := ["clip.mp4"%string].

Definition disk (rate : float) (frames : list nat) : gmap path (node blob) :=
  {[ clip := File (BVideo rate frames) ]}.

Definition world (rate : float) (frames : list nat) : World :=
  {| fs := disk rate frames; log := [] |}.

(** The same world behind a header that announces [count] frames. *)
Definition announced_world (count : Z) (rate : float) (frames : list nat)
    : @World (announcing count) :=
  @Build_World (announcing count) (disk rate frames) [].

Definition meta (rate : float) (count : Z) : VideoMetaData :=
  {| fps := rate; frame_count := count;
     duration := PyFloat (SFdiv prec emax (f64 count 0) rate);
     format := S754_zero false; fourcc := 0; width := 0; height := 0 |}.

(** A reader over [clip] whose metadata reports [rate] and [count]. *)
Definition reader (rate : float) (count : Z) (iv : option pynum)
    (c : option handle) : VideoReader :=
  {| path_ := clip; interval := iv; start_time := PyInt 0;
     metadata := meta rate count; cap := c |}.

Definition io_video (rate : float) (count : Z) : IoVideo :=
  {| io_vpath := clip; io_metadata := meta rate count |}.

(** The session state right after [__enter__] on a video of the given
    frames. *)
Definition entered (rate : float) (frames : list nat) (iv : option pynum) : RS :=
  (reader rate (Z.of_nat (length frames)) iv (Some (open (disk rate frames) clip)),
   world rate frames).

End Ref.


(** * Properties *)

(** ** Arithmetic of the step computation *)

Module PyNumFacts.
Import PyNum.

Lemma shr_1_nonneg (mrs : shr_record) :
  0 <= shr_m mrs -> 0 <= shr_m (shr_1 mrs).
Proof.
  destruct mrs as [m r s]; simpl.
  destruct m as [|p|p]; [easy| |intros Hneg; lia].
  destruct p; simpl; lia.
Qed.

Lemma iter_shr_1_nonneg (p : positive) :
  forall mrs, 0 <= shr_m mrs -> 0 <= shr_m (SpecFloat.iter_pos shr_1 p mrs).
Proof.
  induction p as [p IH|p IH|]; intros mrs Hm; simpl.
  - apply IH, IH, shr_1_nonneg, Hm.
  - apply IH, IH, Hm.
  - apply shr_1_nonneg, Hm.
Qed.

Lemma shr_nonneg (mrs : shr_record) (e n : Z) :
  0 <= shr_m mrs -> 0 <= shr_m (fst (shr mrs e n)).
Proof.
  intros Hm. destruct n; simpl; auto using iter_shr_1_nonneg.
Qed.

Lemma shr_fexp_nonneg (m e : Z) (l : location) :
  0 <= m -> 0 <= shr_m (fst (shr_fexp prec emax m e l)).
Proof.
  intros Hm. unfold shr_fexp. apply shr_nonneg.
  destruct l as [|[]]; exact Hm.
Qed.

Lemma round_nearest_even_nonneg (m : Z) (l : location) :
  0 <= m -> 0 <= round_nearest_even m l.
Proof.
  intros Hm. destruct l as [|[]]; simpl; try lia.
  destruct (Z.even m); lia.
Qed.

(** Rounding a non-negative mantissa keeps the requested sign and never
    produces a NaN. *)
Lemma binary_round_aux_sign (sx : bool) (mx ex : Z) (lx : location) :
  0 <= mx ->
  match binary_round_aux prec emax sx mx ex lx with
  | S754_zero s | S754_infinity s | S754_finite s _ _ => s = sx
  | S754_nan => False
  end.
Proof.
  intros Hm. unfold binary_round_aux.
  pose proof (shr_fexp_nonneg mx ex lx Hm) as H1.
  destruct (shr_fexp prec emax mx ex lx) as [mrs' e'] eqn:E1. simpl in H1.
  pose proof (shr_fexp_nonneg _ e' loc_Exact
                (round_nearest_even_nonneg _ (loc_of_shr_record mrs') H1)) as H2.
  destruct (shr_fexp prec emax _ e' loc_Exact) as [mrs'' e''] eqn:E2.
  simpl in H2.
  destruct (shr_m mrs'') as [|p|p]; [reflexivity| |lia].
  destruct (e'' <=? emax - prec); reflexivity.
Qed.

(** The product of two positive finite floats is [+0] (underflow), a
    positive finite float, or [+inf] (overflow). *)
Lemma SFmul_pos (a b : float) :
  is_pos_finite a = true -> is_pos_finite b = true ->
  match SFmul prec emax a b with
  | S754_zero s | S754_infinity s | S754_finite s _ _ => s = false
  | S754_nan => False
  end.
Proof.
  destruct a as [| | |[] ma ea]; try discriminate.
  destruct b as [| | |[] mb eb]; try discriminate.
  intros _ _. simpl.
  apply (binary_round_aux_sign false (Zpos (ma * mb)) (ea + eb) loc_Exact).
  lia.
Qed.

Lemma SF2Q_nonneg (m : positive) (e : Z) :
  (0 <= SF2Q (S754_finite false m e))%Q.
Proof.
  unfold SF2Q. destruct e as [|p|p].
  - unfold Qle; simpl; lia.
  - unfold Qle; simpl. pose proof (Z.pow_pos_nonneg 2 (Zpos p)). lia.
  - unfold Qle; simpl; lia.
Qed.

(** [int()] of a float that is not negative is the floor of its exact
    value. *)
Lemma int_of_float_floor (f : float) :
  match f with
  | S754_zero _ | S754_finite false _ _ => int_of_float f = Ok (SFfloor f)
  | _ => True
  end.
Proof.
  destruct f as [s|s| |[] m e]; try exact I.
  - reflexivity.
  - unfold int_of_float, SFfloor, SF2Q, cond_Zopp. f_equal.
    destruct e as [|p|p].
    + rewrite Z.shiftl_0_r. symmetry. apply Qfloor_Z.
    + rewrite Z.shiftl_mul_pow2 by lia. symmetry. apply Qfloor_Z.
    + change (Z.shiftl (Zpos m) (Zneg p)) with (Z.shiftr (Zpos m) (Zpos p)).
      rewrite Z.shiftr_div_pow2 by lia.
      unfold Qfloor. rewrite Pos2Z.inj_pow. reflexivity.
Qed.

Lemma SFfloor_nonneg (f : float) :
  match f with
  | S754_zero _ | S754_finite false _ _ => 0 <= SFfloor f
  | _ => True
  end.
Proof.
  destruct f as [s|s| |[] m e]; try exact I.
  - unfold SFfloor; simpl. reflexivity.
  - unfold SFfloor. change 0 with (Qfloor 0).
    apply Qfloor_resp_le, SF2Q_nonneg.
Qed.

(** The expression [int(i * fps)] shared by the two step computations. *)
Lemma int_of_product (i : pynum) (fi rate : float) :
  as_float i = Ok fi ->
  is_pos_finite fi = true ->
  is_pos_finite rate = true ->
  is_finite (SFmul prec emax fi rate) = true ->
  rbind (py_mul i (PyFloat rate)) py_int = Ok (SFfloor (SFmul prec emax fi rate))
  /\ 0 <= SFfloor (SFmul prec emax fi rate).
Proof.
  intros Hi Hfi Hrate Hfin.
  assert (Hmul : py_mul i (PyFloat rate) = Ok (PyFloat (SFmul prec emax fi rate))).
  { destruct i as [z|f]; simpl in *.
    - rewrite Hi. reflexivity.
    - injection Hi as ->. reflexivity. }
  rewrite Hmul. simpl.
  pose proof (SFmul_pos fi rate Hfi Hrate) as Hs.
  pose proof (int_of_float_floor (SFmul prec emax fi rate)) as Hf.
  pose proof (SFfloor_nonneg (SFmul prec emax fi rate)) as Hn.
  destruct (SFmul prec emax fi rate) as [s|s| |s m e]; try discriminate.
  - auto.
  - subst s. auto.
Qed.

End PyNumFacts.

(** ** The step computation: [VideoReader.get_steps], [Video._get_steps] *)

Module Steps.
Import PyNum Model PyNumFacts.

Section WithBackend.
Context `{B : Backend}.

(** C1, as the code has it: for a positive finite frame rate and a
    positive interval whose product does not overflow, both step
    computations return the floor of the (binary64) product
    [interval * fps], by truncation and with no clamp to 1: the result is
    [max 1 (floor ...)] exactly when the product is at least 1, and is 0
    below that. *)
Theorem get_steps_floor_unclamped
    (r : VideoReader) (v : IoVideo) (i : pynum) (fi rate : float) :
  interval r = Some i ->
  fps (metadata r) = rate ->
  fps (io_metadata v) = rate ->
  as_float i = Ok fi ->
  is_pos_finite fi = true ->
  is_pos_finite rate = true ->
  is_finite (SFmul prec emax fi rate) = true ->
  let n := SFfloor (SFmul prec emax fi rate) in
  get_steps r = Ok n /\
  io_get_steps v (Some i) = Ok n /\
  0 <= n /\
  (get_steps r = Ok (Z.max 1 n) <-> 1 <= n) /\
  (n < 1 -> get_steps r = Ok 0 /\ io_get_steps v (Some i) = Ok 0).
Proof.
  intros Hi Hr Hv Hfi Hpos Hrate Hfin n.
  destruct (int_of_product i fi rate Hfi Hpos Hrate Hfin) as [Hstep Hn].
  fold n in Hstep, Hn.
  assert (Hg : get_steps r = Ok n) by (unfold get_steps; rewrite Hi, Hr; exact Hstep).
  assert (Hio : io_get_steps v (Some i) = Ok n)
    by (unfold io_get_steps; rewrite Hv; exact Hstep).
  repeat split; auto.
  - rewrite Hg. intros [= Heq]. lia.
  - intros H1. rewrite Hg. f_equal. lia.
  - rewrite Hg. f_equal. lia.
  - rewrite Hio. f_equal. lia.
Qed.

(** C3: with no interval, [Video._get_steps] returns 1, but
    [VideoReader.get_steps] multiplies [None] by the frame rate: it
    raises [TypeError], and so does batch extraction, before any frame
    is visited. *)
Theorem get_steps_None_raises
    (p : path) (st : pynum) (md : VideoMetaData) (c : option Cap)
    (w : World) (v : IoVideo) :
  let r := {| path_ := p; interval := None; start_time := st;
              metadata := md; cap := c |} in
  get_steps r = Err TypeError /\
  extract_frames (r, w) = (Err TypeError, (r, w)) /\
  io_get_steps v None = Ok 1.
Proof. repeat split. Qed.

End WithBackend.

(** C1 does not hold as stated: at half a frame per second and an
    interval of one second the step is 0, where the claim gives 1. *)
Lemma get_steps_clamp_counterexample :
  let r := Ref.reader (f64 1 (-1)) 10 (Some (PyInt 1)) None in
  is_pos_finite (fps (metadata r)) = true /\
  py_gt0 (PyInt 1) = true /\
  as_float (PyInt 1) = Ok (f64 1 0) /\
  Z.max 1 (SFfloor (SFmul prec emax (f64 1 0) (fps (metadata r)))) = 1 /\
  get_steps r = Ok 0 /\
  io_get_steps (Ref.io_video (f64 1 (-1)) 10) (Some (PyInt 1)) = Ok 0 /\
  get_steps r <> Ok (Z.max 1 (SFfloor (SFmul prec emax (f64 1 0) (fps (metadata r))))).
Proof. vm_compute. repeat split; congruence. Qed.

Lemma get_steps_floor_unclamped_witness :
  let r := Ref.reader (f64 30 0) 300 (Some (PyInt 1)) None in
  get_steps r = Ok 30 /\ io_get_steps (Ref.io_video (f64 30 0) 300) (Some (PyInt 1)) = Ok 30.
Proof.
  pose proof (get_steps_floor_unclamped
                (Ref.reader (f64 30 0) 300 (Some (PyInt 1)) None)
                (Ref.io_video (f64 30 0) 300) (PyInt 1) (f64 1 0) (f64 30 0)
                eq_refl eq_refl eq_refl eq_refl eq_refl eq_refl eq_refl) as H.
  cbv zeta in H. destruct H as (H1 & H2 & _).
  split; [exact H1 | exact H2].
Defined.

End Steps.

(** ** Stepping the backend wrappers *)

Module ModelFacts.
Import PyNum Model.

Section WithBackend.
Context `{B : Backend}.

Lemma w_append_nil (w : World) : w_append [] w = w.
Proof. destruct w; unfold w_append; simpl. rewrite app_nil_r. reflexivity. Qed.

Lemma w_append_app (e1 e2 : list event) (w : World) :
  w_append e2 (w_append e1 w) = w_append (e1 ++ e2) w.
Proof. unfold w_append; simpl. rewrite app_assoc. reflexivity. Qed.

Lemma set_cap_set_cap (c1 c2 : option Cap) (r : VideoReader) :
  set_cap c2 (set_cap c1 r) = set_cap c2 r.
Proof. reflexivity. Qed.

Lemma set_cap_same (r : VideoReader) (c : option Cap) :
  cap r = c -> set_cap c r = r.
Proof. intros <-. destruct r; reflexivity. Qed.

Lemma on_cap_Some {A} (e : Cap -> event) (f : Cap -> A * Cap)
    (r : VideoReader) (c : Cap) (w : World) :
  cap r = Some c ->
  on_cap e f (r, w)
  = (Ok (fst (f c)), (set_cap (Some (snd (f c))) r, w_append [e c] w)).
Proof.
  intros Hc. unfold on_cap. rewrite Hc. destruct (f c); reflexivity.
Qed.


Lemma cap_set_Some (k : cap_prop) (v : pynum) (r : VideoReader) (c : Cap)
    (w : World) :
  cap r = Some c ->
  cap_set k v (r, w)
  = (Ok tt, (set_cap (Some (cv_set k v c)) r, w_append [ESet k v] w)).
Proof. intros Hc. unfold cap_set. rewrite (on_cap_Some _ _ r c w Hc). reflexivity. Qed.

Lemma cap_read_Some (r : VideoReader) (c : Cap) (w : World) :
  cap r = Some c ->
  cap_read (r, w)
  = (Ok (fst (cv_read c)),
     (set_cap (Some (snd (cv_read c))) r,
      w_append [ERead (fst (cv_read c))] w)).
Proof. intros Hc. unfold cap_read. rewrite (on_cap_Some _ _ r c w Hc). reflexivity. Qed.

Lemma cap_get_Some (k : cap_prop) (r : VideoReader) (c : Cap) (w : World) :
  cap r = Some c ->
  cap_get k (r, w) = (Ok (cv_get k c), (r, w_append [EGet k] w)).
Proof.
  intros Hc. unfold cap_get. rewrite (on_cap_Some _ _ r c w Hc). simpl.
  rewrite (set_cap_same r (Some c) Hc). reflexivity.
Qed.

Lemma cap_isOpened_Some (r : VideoReader) (c : Cap) (w : World) :
  cap r = Some c ->
  cap_isOpened (r, w) = (Ok (cv_isOpened c), (r, w_append [EIsOpened] w)).
Proof.
  intros Hc. unfold cap_isOpened. rewrite (on_cap_Some _ _ r c w Hc). simpl.
  rewrite (set_cap_same r (Some c) Hc). reflexivity.
Qed.

Lemma cap_release_Some (r : VideoReader) (c : Cap) (w : World) :
  cap r = Some c ->
  cap_release (r, w)
  = (Ok tt, (set_cap (Some (cv_release c)) r, w_append [ERelease] w)).
Proof. intros Hc. unfold cap_release. rewrite (on_cap_Some _ _ r c w Hc). reflexivity. Qed.

Lemma sought_frames_app (e1 e2 : list event) :
  sought_frames (e1 ++ e2) = sought_frames e1 ++ sought_frames e2.
Proof. unfold sought_frames. apply flat_map_app. Qed.

End WithBackend.
End ModelFacts.

(** ** Batch extraction: [VideoReader.extract_frames] *)

Module Batch.
Import PyNum Model ModelFacts.

Section WithBackend.
Context `{B : Backend}.

Lemma extract_loop_spec (ids : list Z) :
  forall (acc : list Frame) (r : VideoReader) (c : Cap) (w : World),
    cap r = Some c ->
    exists fr visited c' evs,
      extract_loop ids acc (r, w)
      = (Ok (acc ++ fr), (set_cap (Some c') r, w_append evs w))
      /\ loop_outcome ids fr visited evs
      /\ forall (I : Cap -> Prop) (frame_at : Z -> option Frame),
           seekable_on I frame_at -> I c ->
           Forall2 (fun i f => frame_at i = Some f)
                   (take (length fr) visited) fr
           /\ Forall (fun i => frame_at i = None) (drop (length fr) visited).
Proof.
  induction ids as [|i ids IH]; intros acc r c w Hc.
  - exists [], [], c, []. split.
    + simpl. unfold ret. rewrite app_nil_r, w_append_nil, (set_cap_same r _ Hc).
      reflexivity.
    + split.
      * split; [reflexivity|]. split; [apply prefix_nil|].
        left; split; reflexivity.
      * intros I frame_at _ _. split; constructor.
  - cbn [extract_loop]. unfold bind at 1.
    rewrite (cap_set_Some _ _ r c w Hc).
    set (c1 := cv_set CAP_PROP_POS_FRAMES (PyInt i) c).
    unfold bind at 1.
    rewrite (cap_read_Some (set_cap (Some c1) r) c1 _ eq_refl).
    rewrite set_cap_set_cap, w_append_app.
    destruct (fst (cv_read c1)) as [f|] eqn:Hread.
    + destruct (IH (acc ++ [f]) (set_cap (Some (snd (cv_read c1))) r)
                  (snd (cv_read c1))
                  (w_append ([ESet CAP_PROP_POS_FRAMES (PyInt i)] ++
                             [ERead (Some f)]) w)
                  eq_refl)
        as (fr & visited & c' & evs & Hrun & (Hevs & Hpre & Hlen) & Hseek).
      exists (f :: fr), (i :: visited), c', (visit_events (Some f) i ++ evs).
      split; [|split].
      * rewrite Hrun, set_cap_set_cap, w_append_app, <- app_assoc.
        reflexivity.
      * split; [rewrite Hevs; reflexivity|].
        split; [apply prefix_cons, Hpre|].
        destruct Hlen as [[Hl ->]|Hl]; [left|right]; simpl; auto.
      * intros I frame_at Hlaw HI. pose proof Hlaw as (Hset & Hrd & Hat).
        assert (HI2 : I (snd (cv_read c1))) by apply Hrd, Hset, HI.
        destruct (Hseek I frame_at Hlaw HI2) as [Hok Hnone].
        split; [|exact Hnone].
        simpl. constructor; [|exact Hok].
        rewrite <- (Hat c i HI). exact Hread.
    + exists [], [i], (snd (cv_read c1)), (visit_events None i).
      split; [|split].
      * unfold ret. rewrite app_nil_r. reflexivity.
      * split; [reflexivity|].
        split; [apply prefix_cons, prefix_nil|].
        right; reflexivity.
      * intros I frame_at (_ & _ & Hat) HI. split; [constructor|].
        simpl. constructor; [|constructor].
        rewrite <- (Hat c i HI). exact Hread.
Qed.

End WithBackend.

(** *** The candidate indices *)

Lemma py_range_candidates (count step : Z) :
  0 < step -> 0 <= count ->
  py_range 0 count step = Ok (candidates count step).
Proof.
  intros Hs Hc. unfold py_range, candidates, range_length.
  destruct (Z.eqb_spec step 0) as [->|_]; [lia|].
  replace (0 <? step) with true by (symmetry; apply Z.ltb_lt; lia).
  f_equal. simpl andb.
  destruct (Z.ltb_spec 0 count) as [Hpos|Hzero].
  - replace (count + step - 1) with (count - 0 - 1 + 1 * step) by lia.
    rewrite Z.div_add by lia. reflexivity.
  - assert (count = 0) as -> by lia.
    rewrite andb_false_r.
    rewrite (Z.div_small (0 + step - 1) step) by lia. reflexivity.
Qed.

Lemma candidates_length (count step : Z) :
  length (candidates count step) = Z.to_nat ((count + step - 1) / step).
Proof. unfold candidates. rewrite length_map, length_seq. reflexivity. Qed.

Lemma candidates_bounds (count step : Z) :
  0 < step -> 0 <= count ->
  Forall (fun i => 0 <= i < count /\ i mod step = 0) (candidates count step).
Proof.
  intros Hs Hc. unfold candidates. apply Forall_map, Forall_forall.
  intros k Hk. apply list_elem_of_In, in_seq in Hk.
  pose proof (Z.mul_div_le (count + step - 1) step Hs) as Hle.
  assert (0 <= (count + step - 1) / step) by (apply Z.div_pos; lia).
  repeat split; [lia|nia|apply Z.mod_mul; lia].
Qed.

Lemma progression_sorted (step : Z) (n : nat) :
  0 < step ->
  forall start : nat,
    StronglySorted Z.lt (map (fun k : nat => Z.of_nat k * step) (seq start n)).
Proof.
  intros Hs. induction n as [|n IH]; intros start; simpl; constructor.
  - apply IH.
  - apply Forall_map, Forall_forall. intros k Hk.
    apply list_elem_of_In, in_seq in Hk. simpl. nia.
Qed.

Lemma candidates_sorted (count step : Z) :
  0 < step -> StronglySorted Z.lt (candidates count step).
Proof. intros Hs. apply progression_sorted, Hs. Qed.

Lemma sorted_lt_NoDup (l : list Z) : StronglySorted Z.lt l -> NoDup l.
Proof.
  induction 1 as [|x l _ IH Hall]; constructor; auto.
  intros Hin. rewrite Forall_forall in Hall. specialize (Hall x Hin). lia.
Qed.

Lemma sorted_prefix (l k : list Z) :
  StronglySorted Z.lt (l ++ k) -> StronglySorted Z.lt l.
Proof.
  induction l as [|x l IH]; simpl; intros Hs; [constructor|].
  apply StronglySorted_inv in Hs as [Hs Hall].
  constructor; [apply IH, Hs|].
  apply Forall_app in Hall as [Hall _]. exact Hall.
Qed.

Section Extraction.
Context `{B : Backend}.

Lemma sought_frames_visits (l : list Z) :
  sought_frames (flat_map (visit_events None) l) = l.
Proof. induction l as [|x l IH]; simpl; [reflexivity|]. f_equal. exact IH. Qed.

Lemma sought_frames_reads (l : list Z) :
  forall fr : list Frame,
    length l = length fr ->
    sought_frames (concat (zip_with (fun i f => visit_events (Some f) i) l fr)) = l.
Proof.
  induction l as [|x l IH]; intros [|f fr] Hlen; simpl in *; try reflexivity;
    try discriminate.
  f_equal. apply IH. congruence.
Qed.

Lemma reads_visits (l : list Z) :
  reads (flat_map (visit_events None) l) = [].
Proof. induction l as [|x l IH]; simpl; [reflexivity|exact IH]. Qed.

Lemma reads_kept (l : list Z) :
  forall fr : list Frame,
    length l = length fr ->
    reads (concat (zip_with (fun i f => visit_events (Some f) i) l fr)) = fr.
Proof.
  induction l as [|x l IH]; intros [|f fr] Hlen; simpl in *; try reflexivity;
    try discriminate.
  f_equal. apply IH. congruence.
Qed.

(** The indices visited are the candidates up to the one that follows
    the frames kept. *)
Lemma visited_take (ids : list Z) (fr : list Frame) (visited : list Z)
    (evs : list event) :
  loop_outcome ids fr visited evs -> visited = take (S (length fr)) ids.
Proof.
  intros (_ & [k Hpre] & [[Hl Hall]|Hl]).
  - rewrite <- Hall, Hl. symmetry. apply take_ge. lia.
  - subst ids. rewrite <- Hl. symmetry. apply take_app_length.
Qed.

(** C4, as the code has it: with a positive step and a frame count that
    is not negative, [extract_frames] returns normally.  It seeks to the
    candidate indices [0, step, 2*step, ...] below the frame count in
    that order, one read per seek, but only up to and including the
    first index at which the read gives no frame: the indices visited
    are the first [length frames + 1] candidates, and all the candidates
    exactly when no read but the last fails.  The frames returned are the
    frames read, in that order; every index visited is a multiple of the
    step below the frame count; the indices are strictly increasing,
    hence without duplicates; at most [ceil(count / step)] frames are
    returned, and with a count of 0 nothing is visited or returned.  On
    handles where a read after a seek to [i] gives the frame of index
    [i], the frames returned are those of the indices visited and the
    index left over has none. *)
Theorem extract_frames_candidates
    (r : VideoReader) (c : Cap) (w : World) (step : Z) :
  cap r = Some c ->
  get_steps r = Ok step ->
  0 < step ->
  0 <= frame_count (metadata r) ->
  let count := frame_count (metadata r) in
  exists (frames : list Frame) (visited : list Z) (c' : Cap) (evs : list event),
    extract_frames (r, w)
    = (Ok frames,
       (set_cap (Some (cv_release c')) r, w_append (evs ++ [ERelease]) w))
    /\ loop_outcome (candidates count step) frames visited evs
    /\ sought_frames evs = visited
    /\ reads evs = frames
    /\ visited = take (S (length frames)) (candidates count step)
    /\ (visited = candidates count step
        <-> (length (candidates count step) <= S (length frames))%nat)
    /\ Forall (fun i => 0 <= i < count /\ i mod step = 0) visited
    /\ StronglySorted Z.lt visited
    /\ NoDup visited
    /\ (length frames <= length visited)%nat
    /\ Z.of_nat (length frames) <= (count + step - 1) / step
    /\ (count = 0 -> frames = [] /\ visited = [])
    /\ (forall (I : Cap -> Prop) (frame_at : Z -> option Frame),
          seekable_on I frame_at -> I c ->
          Forall2 (fun i f => frame_at i = Some f)
                  (take (length frames) visited) frames
          /\ Forall (fun i => frame_at i = None)
                    (drop (length frames) visited)).
Proof.
  intros Hc Hsteps Hpos Hcount count.
  destruct (extract_loop_spec (candidates count step) [] r c w Hc)
    as (fr & visited & c' & evs & Hrun & Hout & Hat).
  exists fr, visited, c', evs.
  pose proof Hout as (Hevs & [k Hpre] & Hlen).
  pose proof (visited_take _ _ _ _ Hout) as Htake.
  assert (Hvl : (length visited <= length (candidates count step))%nat).
  { rewrite Hpre, length_app. lia. }
  assert (Hfl : (length fr <= length visited)%nat).
  { destruct Hlen as [[Hl _]|Hl]; lia. }
  split.
  { unfold extract_frames, bind, self, lift. simpl fst.
    rewrite Hsteps. fold count. rewrite (py_range_candidates count step Hpos Hcount).
    rewrite Hrun. simpl app.
    rewrite (cap_release_Some (set_cap (Some c') r) c' _ eq_refl).
    rewrite set_cap_set_cap, w_append_app. reflexivity. }
  split; [exact Hout|].
  split.
  { rewrite Hevs, sought_frames_app, sought_frames_visits.
    rewrite sought_frames_reads by (rewrite length_take; lia).
    apply take_drop. }
  split.
  { rewrite Hevs. unfold reads at 1. rewrite flat_map_app.
    fold (reads (flat_map (visit_events None) (drop (length fr) visited))).
    rewrite reads_visits, app_nil_r.
    apply reads_kept. rewrite length_take. lia. }
  split; [exact Htake|].
  split.
  { split.
    - intros Hall. destruct Hlen as [[Hl _]|Hl]; rewrite <- Hall; lia.
    - intros Hle. rewrite Htake. apply take_ge. exact Hle. }
  pose proof (candidates_bounds count step Hpos Hcount) as Hb.
  pose proof (candidates_sorted count step Hpos) as Hs.
  rewrite Hpre in Hb, Hs.
  apply Forall_app in Hb as [Hb _]. apply sorted_prefix in Hs.
  split; [exact Hb|]. split; [exact Hs|].
  split; [apply sorted_lt_NoDup, Hs|].
  split; [exact Hfl|].
  rewrite candidates_length in Hvl.
  assert (0 <= (count + step - 1) / step) by (apply Z.div_pos; lia).
  split; [lia|].
  split; [|exact (Hat)].
  intros H0. rewrite H0 in Hvl.
  rewrite (Z.div_small (0 + step - 1) step) in Hvl by lia.
  destruct visited; [|simpl in Hvl; lia].
  destruct fr; [split; reflexivity|simpl in Hfl; lia].
Qed.

End Extraction.

(** Scenario A on the reference backend: 30 frames per second, 300
    frames, one second: the frames of indices 0, 30, ..., 270. *)
Example scenario_A :
  let s := Ref.entered (f64 30 0) (seq 0 300) (Some (PyInt 1)) in
  fst (extract_frames s)
  = Ok [0; 30; 60; 90; 120; 150; 180; 210; 240; 270]%nat
  /\ sought_frames (log (snd (snd (extract_frames s))))
     = [0; 30; 60; 90; 120; 150; 180; 210; 240; 270].
Proof. vm_compute. split; reflexivity. Qed.

(** The handles of the reference backend that are open on [frames]. *)
Lemma Ref_seekable (frames : list nat) :
  @seekable_on Ref.backend
    (fun c => Ref.c_frames c = frames /\ Ref.c_open c = true)
    (fun i => nth_error frames (Z.to_nat (Z.max 0 i))).
Proof.
  split; [|split].
  - intros c k v [Hf Ho]. simpl. unfold Ref.set.
    destruct k; try (split; assumption).
    + destruct (rbind _ _); split; assumption.
    + destruct (py_int v); split; assumption.
  - intros c [Hf Ho]. simpl. unfold Ref.read. rewrite Ho.
    destruct (nth_error (Ref.c_frames c) (Z.to_nat (Ref.c_pos c)));
      split; assumption.
  - intros c i [Hf Ho]. simpl. unfold Ref.read. simpl. rewrite Ho, Hf.
    destruct (nth_error frames (Z.to_nat (Z.max 0 i))); reflexivity.
Qed.

Lemma extract_frames_candidates_witness :
  let s := Ref.entered (f64 2 0) [10; 11; 12; 13; 14]%nat (Some (PyInt 1)) in
  exists frames visited,
    fst (extract_frames s) = Ok frames
    /\ visited = take (S (length frames)) (candidates 5 2)
    /\ StronglySorted Z.lt visited
    /\ (length frames <= length visited)%nat
    /\ Z.of_nat (length frames) <= (5 + 2 - 1) / 2
    /\ Forall2 (fun i f => nth_error [10; 11; 12; 13; 14]%nat
                              (Z.to_nat (Z.max 0 i)) = Some f)
               (take (length frames) visited) frames.
Proof.
  intros s.
  pose (c := Ref.open (Ref.disk (f64 2 0) [10; 11; 12; 13; 14]%nat) Ref.clip).
  assert (HI : Ref.c_frames c = [10; 11; 12; 13; 14]%nat /\ Ref.c_open c = true)
    by (split; reflexivity).
  destruct (extract_frames_candidates (fst s) c
              (snd s) 2 eq_refl eq_refl eq_refl ltac:(vm_compute; discriminate))
    as (fr & visited & c' & evs & Hrun & _ & _ & _ & Htake & _ & _ & Hsorted
        & _ & Hle & Hceil & _ & Hat).
  exists fr, visited.
  split; [|split; [exact Htake|split; [exact Hsorted|split; [exact Hle|
          split; [exact Hceil|]]]]].
  - change s with (fst s, snd s). rewrite Hrun. reflexivity.
  - exact (proj1 (Hat _ _ (Ref_seekable [10; 11; 12; 13; 14]%nat) HI)).
Defined.

(** C4 does not hold as stated: a container that announces 5 frames of
    which 2 can be decoded, read with a step of 1.  The reader is built
    and entered as [with VideoReader(path, 1)] does; the candidates are
    [0, 1, 2, 3, 4], the loop seeks to 0, 1 and 2 only, and stops at the
    read that gives no frame. *)
Lemma extract_frames_stops_early_counterexample :
  exists (r : @VideoReader (Ref.announcing 5)) (w1 : @World (Ref.announcing 5))
         (s : @RS (Ref.announcing 5)),
    @VideoReader_init (Ref.announcing 5) (PStr Ref.clip) (Some (PyInt 1))
      (PyInt 0) (Ref.announced_world 5 (f64 1 0) [10; 11]%nat)
    = (Ok r, w1)
    /\ @enter (Ref.announcing 5) (r, w1) = (Ok tt, s)
    /\ frame_count (metadata r) = 5
    /\ @get_steps (Ref.announcing 5) r = Ok 1
    /\ candidates 5 1 = [0; 1; 2; 3; 4]
    /\ fst (@extract_frames (Ref.announcing 5) s) = Ok [10; 11]%nat
    /\ @sought_frames (Ref.announcing 5)
         (log (snd (snd (@extract_frames (Ref.announcing 5) s))))
       = [0; 1; 2]
    /\ @sought_frames (Ref.announcing 5)
         (log (snd (snd (@extract_frames (Ref.announcing 5) s))))
       <> candidates 5 1.
Proof.
  eexists _, _, _.
  split; [reflexivity|]. split; [reflexivity|].
  repeat split; try reflexivity.
  intros H. discriminate H.
Qed.

End Batch.

(** ** The lazy generator: [VideoReader.generator] *)

Module Generator.
Import PyNum Model ModelFacts.

Section WithBackend.
Context `{B : Backend}.

Lemma gen_loop_open (r : VideoReader) (c : Cap) (evs : list event) (w : World) :
  cap r = Some c ->
  cv_isOpened c = true ->
  gen_loop (r, w_append evs w) = read_frame r c evs w.
Proof.
  intros Hc Hopen. unfold gen_loop, bind.
  rewrite (cap_isOpened_Some r c _ Hc), Hopen.
  rewrite (cap_read_Some r c _ Hc), !w_append_app.
  unfold read_frame, ret.
  destruct (fst (cv_read c)); reflexivity.
Qed.

Lemma gen_loop_closed (r : VideoReader) (c : Cap) (w : World) :
  cap r = Some c ->
  cv_isOpened c = false ->
  gen_loop (r, w) = (Ok (StopIteration, GenClosed), (r, w_append [EIsOpened] w)).
Proof.
  intros Hc Hopen. unfold gen_loop, bind.
  rewrite (cap_isOpened_Some r c _ Hc), Hopen. reflexivity.
Qed.

Lemma gen_resume_None (r : VideoReader) (w : World) :
  interval r = None -> gen_resume (r, w) = (Ok tt, (r, w)).
Proof.
  intros Hi. unfold gen_resume, self. unfold bind at 1.
  cbv beta iota. cbn [fst]. rewrite Hi. reflexivity.
Qed.

Lemma gen_resume_Some (r : VideoReader) (c : Cap) (w : World) (i : pynum)
    (step : Z) (fstep : float) :
  cap r = Some c ->
  interval r = Some i ->
  get_steps r = Ok step ->
  float_of_int step = Ok fstep ->
  let target := PyFloat (SFadd prec emax (cv_get CAP_PROP_POS_FRAMES c) fstep) in
  gen_resume (r, w)
  = (Ok tt, (set_cap (Some (cv_set CAP_PROP_POS_FRAMES target c)) r,
             w_append [EGet CAP_PROP_POS_FRAMES;
                       ESet CAP_PROP_POS_FRAMES target] w)).
Proof.
  intros Hc Hi Hsteps Hf target. unfold gen_resume, self. unfold bind at 1.
  cbv beta iota. cbn [fst]. rewrite Hi. unfold lift, bind.
  rewrite Hsteps. rewrite (cap_get_Some _ r c _ Hc).
  unfold py_add, as_float, rbind. rewrite Hf.
  rewrite (cap_set_Some _ _ r c _ Hc), w_append_app. reflexivity.
Qed.

(** C6: on an open handle the first pull reads at the current position,
    with no seek before it; a later pull with no interval does the same
    on the position the previous read left; a later pull with an interval
    first sets the position to the current position plus the step, then
    reads. *)
Theorem generator_pull (r : VideoReader) (c : Cap) (w : World) :
  cap r = Some c ->
  (cv_isOpened c = true ->
   gen_next GenCreated (r, w) = read_frame r c [] w)
  /\ (cv_isOpened c = true -> interval r = None ->
      gen_next GenSuspended (r, w) = read_frame r c [] w)
  /\ (forall (i : pynum) (step : Z) (fstep : float),
        interval r = Some i ->
        get_steps r = Ok step ->
        float_of_int step = Ok fstep ->
        let target :=
          PyFloat (SFadd prec emax (cv_get CAP_PROP_POS_FRAMES c) fstep) in
        let c1 := cv_set CAP_PROP_POS_FRAMES target c in
        cv_isOpened c1 = true ->
        gen_next GenSuspended (r, w)
        = read_frame r c1 [EGet CAP_PROP_POS_FRAMES;
                           ESet CAP_PROP_POS_FRAMES target] w).
Proof.
  intros Hc. repeat split.
  - intros Hopen. simpl. rewrite <- (w_append_nil w) at 1.
    apply gen_loop_open; assumption.
  - intros Hopen Hi. simpl. unfold bind at 1. rewrite (gen_resume_None r w Hi).
    rewrite <- (w_append_nil w) at 1. apply gen_loop_open; assumption.
  - intros i step fstep Hi Hsteps Hf target c1 Hopen. simpl. unfold bind at 1.
    rewrite (gen_resume_Some r c w i step fstep Hc Hi Hsteps Hf).
    fold target. fold c1.
    rewrite (gen_loop_open (set_cap (Some c1) r) c1 _ w eq_refl Hopen).
    unfold read_frame. rewrite set_cap_set_cap. reflexivity.
Qed.

(** The generator ends at the first read that gives no frame, without an
    error, and stays ended. *)
Lemma generator_stops_on_failed_read (r : VideoReader) (c : Cap)
    (evs : list event) (w : World) :
  fst (cv_read c) = None ->
  fst (read_frame r c evs w) = Ok (StopIteration, GenClosed)
  /\ forall s, gen_next GenClosed s = (Ok (StopIteration, GenClosed), s).
Proof.
  intros Hread. unfold read_frame. rewrite Hread. split; reflexivity.
Qed.

End WithBackend.

Lemma generator_pull_witness :
  let s := Ref.entered (f64 1 0) [10; 11; 12; 13; 14]%nat (Some (PyInt 1)) in
  exists s1 s2,
    gen_next GenCreated s = (Ok (Yielded 10%nat, GenSuspended), s1)
    /\ gen_next GenSuspended s1 = (Ok (Yielded 12%nat, GenSuspended), s2)
    /\ reads (log (snd s2)) = [10; 12]%nat.
Proof.
  intros s.
  pose (c := Ref.open (Ref.disk (f64 1 0) [10; 11; 12; 13; 14]%nat) Ref.clip).
  destruct (generator_pull (fst s) c (snd s) eq_refl) as (H1 & _ & _).
  specialize (H1 eq_refl).
  pose (s1 := snd (gen_next GenCreated s)).
  destruct (generator_pull (fst s1) (Ref.seek 1 c) (snd s1) eq_refl)
    as (_ & _ & H3).
  specialize (H3 (PyInt 1) 1 (f64 1 0) eq_refl eq_refl eq_refl eq_refl).
  exists s1, (snd (gen_next GenSuspended s1)).
  split; [|split].
  - change s with (fst s, snd s). rewrite H1. reflexivity.
  - change s1 with (fst s1, snd s1) at 1. rewrite H3. reflexivity.
  - vm_compute. reflexivity.
Defined.

End Generator.

(** ** Construction: [VideoMetaData.from_path], [VideoReader.__init__],
       [io.Video.__init__] *)

Module Construction.
Import PyNum Model ModelFacts.

Lemma int_of_float_error (f : float) (e : exn) :
  int_of_float f = Err e -> numeric_error e.
Proof. destruct f; simpl; intros [= <-]; unfold numeric_error; auto. Qed.

Lemma int_of_float_no_timeout (f : float) : int_of_float f <> Timeout.
Proof. destruct f; discriminate. Qed.

Lemma float_of_int_error (z : Z) (e : exn) :
  float_of_int z = Err e -> numeric_error e.
Proof.
  unfold float_of_int. destruct (binary_normalize prec emax z 0 false);
    intros [= <-]; unfold numeric_error; auto.
Qed.

Lemma float_of_int_no_timeout (z : Z) : float_of_int z <> Timeout.
Proof.
  unfold float_of_int. destruct (binary_normalize prec emax z 0 false);
    discriminate.
Qed.

Lemma py_truediv_error (z : Z) (f : float) (e : exn) :
  py_truediv (PyInt z) (PyFloat f) = Err e -> numeric_error e.
Proof.
  unfold py_truediv, as_float, rbind.
  destruct (float_of_int z) as [fz|e'|] eqn:Hz.
  - destruct (is_zero f); intros [= <-]. unfold numeric_error; auto.
  - intros [= <-]. eapply float_of_int_error, Hz.
  - discriminate.
Qed.

Lemma py_truediv_no_timeout (z : Z) (f : float) :
  py_truediv (PyInt z) (PyFloat f) <> Timeout.
Proof.
  unfold py_truediv, as_float, rbind.
  destruct (float_of_int z) as [fz|e'|] eqn:Hz.
  - destruct (is_zero f); discriminate.
  - discriminate.
  - exfalso. eapply float_of_int_no_timeout, Hz.
Qed.

Ltac log_suffix :=
  eexists; rewrite <- ?app_assoc; simpl; reflexivity.

Section WithBackend.
Context `{B : Backend}.

(** What [from_path] does, whatever the path: it opens a capture on it
    and queries it; it fails only with an arithmetic error; it leaves the
    file system as it is. *)
Lemma from_path_calls (p : path) (w : World) :
  (exists evs,
      log (snd (from_path p w))
      = log w ++ [EOpen p; EGet CAP_PROP_FPS; EGet CAP_PROP_FRAME_COUNT] ++ evs)
  /\ fs (snd (from_path p w)) = fs w
  /\ match fst (from_path p w) with
     | Ok md => fps md = cv_get CAP_PROP_FPS (cv_open (fs w) p)
     | Err e => numeric_error e
     | Timeout => False
     end.
Proof.
  unfold from_path, bind, VideoCapture, get_of, lift, w_emit, ret. cbn.
  set (c := cv_open (fs w) p).
  destruct (int_of_float (cv_get CAP_PROP_FRAME_COUNT c)) as [n|e|] eqn:Hn; cbn.
  2:{ split; [log_suffix|]. split; [reflexivity|].
      eapply int_of_float_error, Hn. }
  2:{ exfalso. eapply int_of_float_no_timeout, Hn. }
  destruct (py_truediv (PyInt n) (PyFloat (cv_get CAP_PROP_FPS c)))
    as [d|e|] eqn:Hd; cbn.
  2:{ split; [log_suffix|]. split; [reflexivity|].
      eapply py_truediv_error, Hd. }
  2:{ exfalso. eapply py_truediv_no_timeout, Hd. }
  destruct (int_of_float (cv_get CAP_PROP_FOURCC c)) as [cc|e|] eqn:Hcc; cbn.
  2:{ split; [log_suffix|].
      split; [reflexivity|]. eapply int_of_float_error, Hcc. }
  2:{ exfalso. eapply int_of_float_no_timeout, Hcc. }
  destruct (int_of_float (cv_get CAP_PROP_FRAME_WIDTH c)) as [wd|e|] eqn:Hwd; cbn.
  2:{ split; [log_suffix|].
      split; [reflexivity|]. eapply int_of_float_error, Hwd. }
  2:{ exfalso. eapply int_of_float_no_timeout, Hwd. }
  destruct (int_of_float (cv_get CAP_PROP_FRAME_HEIGHT c)) as [ht|e|] eqn:Hht; cbn.
  2:{ split; [log_suffix|].
      split; [reflexivity|]. eapply int_of_float_error, Hht. }
  2:{ exfalso. eapply int_of_float_no_timeout, Hht. }
  split; [log_suffix|].
  split; reflexivity.
Qed.

(** C7, on the code: [VideoReader.__init__] has no existence check.  For
    every path, present or not, it opens a capture on the path and
    queries it before anything can fail, and it never fails with the
    "File not found" error that [io.Video.__init__] raises. *)
Theorem VideoReader_init_calls_backend
    (p : pathlike) (iv : option pynum) (st : pynum) (w : World) :
  (exists evs,
      log (snd (VideoReader_init p iv st w))
      = log w ++ [EOpen (parts p); EGet CAP_PROP_FPS;
                  EGet CAP_PROP_FRAME_COUNT] ++ evs)
  /\ (forall msg, fst (VideoReader_init p iv st w) <> Err (RuntimeError msg)).
Proof.
  destruct (from_path_calls (parts p) w) as (Hlog & _ & Hres).
  unfold VideoReader_init, bind, ret.
  destruct (from_path (parts p) w) as [[md|e|] w'] eqn:Hfp; cbn in *.
  - split; [exact Hlog|discriminate].
  - split; [exact Hlog|].
    intros msg [= ->]. destruct Hres as [H|[H|H]]; discriminate.
  - contradiction.
Qed.

(** The sibling constructor does check: on a missing path
    [io.Video.__init__] raises before it touches the backend. *)
Lemma IoVideo_init_missing (io_from_path : path -> M World VideoMetaData)
    (p : pathlike) (w : World) :
  fs_exists (fs w) (parts p) = false ->
  IoVideo_init io_from_path p w
  = (Err (RuntimeError ("File not found: " ++ posix (parts p))), w).
Proof. intros Hmiss. unfold IoVideo_init. rewrite Hmiss. reflexivity. Qed.

End WithBackend.

(** The failing input on the reference backend: no file at
    [missing.mp4].  The capture is opened and queried; the reported frame
    rate of a capture that is not open is 0, and the constructor stops in
    [frame_count / fps]. *)
Example VideoReader_init_missing_file :
  let w := Ref.world (f64 30 0) [10; 11]%nat in
  let p := PStr ["missing.mp4"%string] in
  fs_exists (fs w) (parts p) = false
  /\ fst (VideoReader_init p (Some (PyInt 1)) (PyInt 0) w) = Err ZeroDivisionError
  /\ log (snd (VideoReader_init p (Some (PyInt 1)) (PyInt 0) w))
     = [EOpen ["missing.mp4"%string]; EGet CAP_PROP_FPS; EGet CAP_PROP_FRAME_COUNT]
  /\ fst (IoVideo_init from_path p w)
     = Err (RuntimeError "File not found: missing.mp4")
  /\ log (snd (IoVideo_init from_path p w)) = [].
Proof. intros w p. repeat split; reflexivity. Qed.

End Construction.

(** ** A frame rate of zero, or one that is not finite *)

Module ZeroRate.
Import PyNum Model ModelFacts Generator Construction.

Lemma py_truediv_nonzero (a : pynum) (f : float) (d : pynum) :
  py_truediv a (PyFloat f) = Ok d -> is_zero f = false.
Proof.
  unfold py_truediv, rbind. destruct (as_float a); try discriminate.
  simpl. destruct (is_zero f); [discriminate|reflexivity].
Qed.

Section WithBackend.
Context `{B : Backend}.

(** A reader that was built reports the rate of the backend, and this
    rate is not 0: the division [frame_count / fps] went through. *)
Lemma from_path_rate (p : path) (w : World) (md : VideoMetaData) (w' : World) :
  from_path p w = (Ok md, w') ->
  fps md = cv_get CAP_PROP_FPS (cv_open (fs w) p) /\ is_zero (fps md) = false.
Proof.
  unfold from_path, bind, VideoCapture, get_of, lift, w_emit, ret. cbn.
  set (c := cv_open (fs w) p).
  destruct (int_of_float (cv_get CAP_PROP_FRAME_COUNT c)) as [n|e|]; cbn;
    try discriminate.
  destruct (py_truediv (PyInt n) (PyFloat (cv_get CAP_PROP_FPS c)))
    as [d|e|] eqn:Hd; cbn; try discriminate.
  apply py_truediv_nonzero in Hd.
  destruct (int_of_float (cv_get CAP_PROP_FOURCC c)) as [cc|e|]; cbn;
    try discriminate.
  destruct (int_of_float (cv_get CAP_PROP_FRAME_WIDTH c)) as [wd|e|]; cbn;
    try discriminate.
  destruct (int_of_float (cv_get CAP_PROP_FRAME_HEIGHT c)) as [ht|e|]; cbn;
    try discriminate.
  intros [= <- _]. split; [reflexivity|exact Hd].
Qed.

(** With a rate of 0 the constructor stops in [frame_count / fps], if
    not before. *)
Lemma from_path_zero_rate (p : path) (w : World) :
  is_zero (cv_get CAP_PROP_FPS (cv_open (fs w) p)) = true ->
  exists e,
    fst (from_path p w) = Err e
    /\ numeric_error e
    /\ forall n fn,
         int_of_float (cv_get CAP_PROP_FRAME_COUNT (cv_open (fs w) p)) = Ok n ->
         float_of_int n = Ok fn ->
         e = ZeroDivisionError.
Proof.
  intros Hz. pose proof (from_path_calls p w) as (_ & _ & Hres).
  destruct (from_path p w) as [[md|e|] w'] eqn:Hfp; cbn [fst] in *.
  - apply from_path_rate in Hfp as [Hrate Hnz]. congruence.
  - exists e. split; [reflexivity|]. split; [exact Hres|].
    intros n fn Hn Hfn. revert Hfp.
    unfold from_path, bind, VideoCapture, get_of, lift. cbn.
    rewrite Hn. cbn. unfold py_truediv, as_float, rbind. rewrite Hfn, Hz.
    intros [= <- _]. reflexivity.
  - contradiction.
Qed.

(** [__enter__] changes nothing of the reader but its handle. *)
Lemma enter_reader (r : VideoReader) (w : World) (s : RS) :
  enter (r, w) = (Ok tt, s) ->
  exists c, fst s = set_cap (Some c) r.
Proof.
  unfold enter. destruct (py_gt0 (start_time r)).
  - unfold bind, lift.
    destruct (py_mul (start_time r) (PyInt 1000)) as [ms|e|];
      try discriminate.
    rewrite (cap_set_Some _ _ (set_cap (Some (cv_open (fs w) (path_ r))) r)
               _ _ eq_refl).
    intros [= <-]. eexists. reflexivity.
  - intros [= <-]. eexists. reflexivity.
Qed.

Lemma get_steps_nonfinite (r : VideoReader) (i : pynum) (fi : float) :
  interval r = Some i ->
  as_float i = Ok fi ->
  is_finite (fps (metadata r)) = false ->
  exists e, get_steps r = Err e /\ (e = ValueError \/ e = OverflowError).
Proof.
  intros Hi Hfi Hnf. unfold get_steps. rewrite Hi.
  assert (Hmul : py_mul i (PyFloat (fps (metadata r)))
                 = Ok (PyFloat (SFmul prec emax fi (fps (metadata r))))).
  { destruct i as [z|f]; simpl in *.
    - rewrite Hfi. reflexivity.
    - injection Hfi as ->. reflexivity. }
  rewrite Hmul. simpl.
  destruct (fps (metadata r)) as [s|s| |s m e]; try discriminate;
    destruct fi as [s'|s'| |s' m' e']; simpl; eauto.
Qed.

(** The batch method stops in its step computation, before any call to
    the backend: the handle is not released. *)
Lemma extract_frames_raises (r : VideoReader) (w : World) (e : exn) :
  get_steps r = Err e -> extract_frames (r, w) = (Err e, (r, w)).
Proof.
  intros Hs. unfold extract_frames, self. unfold bind at 1.
  cbv beta iota. cbn [fst]. unfold lift, bind. rewrite Hs. reflexivity.
Qed.

Lemma extract_frames_zero_step (r : VideoReader) (w : World) :
  get_steps r = Ok 0 -> extract_frames (r, w) = (Err ValueError, (r, w)).
Proof.
  intros Hs. unfold extract_frames, self. unfold bind at 1.
  cbv beta iota. cbn [fst]. unfold lift, bind. rewrite Hs. reflexivity.
Qed.

(** The first pull of the generator computes no step. *)
Lemma gen_first_pull (r : VideoReader) (c : Cap) (w : World) :
  cap r = Some c ->
  gen_next GenCreated (r, w)
  = if cv_isOpened c then read_frame r c [] w
    else (Ok (StopIteration, GenClosed), (r, w_append [EIsOpened] w)).
Proof.
  intros Hc. cbn [gen_next]. destruct (cv_isOpened c) eqn:Hopen.
  - rewrite <- (w_append_nil w) at 1. apply (gen_loop_open r c [] w Hc Hopen).
  - apply (gen_loop_closed r c w Hc Hopen).
Qed.

(** The pull after a [yield] starts with the step computation. *)
Lemma gen_resumed_raises (r : VideoReader) (i : pynum) (e : exn) (w : World) :
  interval r = Some i ->
  get_steps r = Err e ->
  gen_next GenSuspended (r, w) = (Err e, (r, w)).
Proof.
  intros Hi Hs. cbn [gen_next]. unfold bind at 1.
  unfold gen_resume, self. unfold bind at 1. cbv beta iota. cbn [fst].
  rewrite Hi. unfold lift, bind. rewrite Hs. reflexivity.
Qed.

Lemma gen_next_no_error_zero_step (r : VideoReader) (c : Cap) (i : pynum)
    (w : World) (g : gen_state) :
  cap r = Some c ->
  interval r = Some i ->
  get_steps r = Ok 0 ->
  exists x s, gen_next g (r, w) = (Ok x, s).
Proof.
  intros Hc Hi Hs. destruct g.
  - rewrite (gen_first_pull r c w Hc). unfold read_frame.
    destruct (cv_isOpened c); eauto.
  - cbn [gen_next]. unfold bind at 1.
    rewrite (gen_resume_Some r c w i 0 (S754_zero false) Hc Hi Hs eq_refl).
    change (gen_loop ?s) with (gen_next GenCreated s).
    erewrite gen_first_pull by reflexivity. unfold read_frame.
    destruct (cv_isOpened _); eauto.
  - cbn. unfold ret. eauto.
Qed.

(** Consuming the generator when the step computation raises [e]: one
    frame is pulled, then the error; no frame, no error. *)
Lemma gen_list_raises_late (r : VideoReader) (c : Cap) (i : pynum) (e : exn)
    (w : World) (fuel : nat) :
  cap r = Some c ->
  interval r = Some i ->
  get_steps r = Err e ->
  fst (gen_list (S (S fuel)) GenCreated (r, w))
  = if cv_isOpened c
    then match fst (cv_read c) with
         | Some _ => Err e
         | None => Ok []
         end
    else Ok [].
Proof.
  intros Hc Hi Hs. cbn [gen_list]. unfold bind at 1.
  rewrite (gen_first_pull r c w Hc).
  destruct (cv_isOpened c); [|reflexivity].
  unfold read_frame. destruct (fst (cv_read c)) as [f|]; [|reflexivity].
  unfold bind at 1. unfold bind at 1.
  rewrite (gen_resumed_raises (set_cap (Some (snd (cv_read c))) r) i e _ Hi Hs).
  reflexivity.
Qed.

(** C2, as the code has it: no check of the rate or of the step exists.
    With a rate of 0 the constructor itself fails, with an arithmetic
    error ([ZeroDivisionError] in [frame_count / fps] once the frame
    count is converted), so no reader exists to extract from.  A reader
    that was built has the rate of the backend, which is not 0.  When
    that rate is not finite, in the session that [__enter__] starts and
    with a numeric interval: the step computation raises [ValueError] or
    [OverflowError]; batch extraction raises it before any call to the
    backend; the first pull of the generator raises nothing and yields
    the frame read, if there is one; the pull after a [yield] raises the
    error, so that a consumer gets one frame and then the error, or no
    frame and no error.  When the step computed is 0 (a small finite
    rate), batch extraction raises [ValueError] from [range] and no pull
    of the generator raises. *)
Theorem invalid_frame_rate
    (p : pathlike) (i : pynum) (fi : float) (st : pynum) (w : World) :
  as_float i = Ok fi ->
  let rate := cv_get CAP_PROP_FPS (cv_open (fs w) (parts p)) in
  let count := cv_get CAP_PROP_FRAME_COUNT (cv_open (fs w) (parts p)) in
  (is_zero rate = true ->
   exists e,
     fst (VideoReader_init p (Some i) st w) = Err e
     /\ numeric_error e
     /\ forall n fn,
          int_of_float count = Ok n -> float_of_int n = Ok fn ->
          e = ZeroDivisionError)
  /\ forall (r : VideoReader) (w1 : World) (s : RS),
       VideoReader_init p (Some i) st w = (Ok r, w1) ->
       enter (r, w1) = (Ok tt, s) ->
       fps (metadata r) = rate
       /\ is_zero rate = false
       /\ exists c,
            fst s = set_cap (Some c) r
            /\ (is_finite rate = false ->
                exists e,
                  (e = ValueError \/ e = OverflowError)
                  /\ get_steps (fst s) = Err e
                  /\ extract_frames s = (Err e, s)
                  /\ gen_next GenCreated s
                     = (if cv_isOpened c
                        then read_frame (fst s) c [] (snd s)
                        else (Ok (StopIteration, GenClosed),
                              (fst s, w_append [EIsOpened] (snd s))))
                  /\ (forall c' w',
                        gen_next GenSuspended (set_cap (Some c') r, w')
                        = (Err e, (set_cap (Some c') r, w')))
                  /\ forall fuel,
                       fst (gen_list (S (S fuel)) GenCreated s)
                       = if cv_isOpened c
                         then match fst (cv_read c) with
                              | Some _ => Err e
                              | None => Ok []
                              end
                         else Ok [])
            /\ (get_steps r = Ok 0 ->
                extract_frames s = (Err ValueError, s)
                /\ forall g c' w', exists x s',
                     gen_next g (set_cap (Some c') r, w') = (Ok x, s')).
Proof.
  intros Hfi rate count. split.
  - intros Hz. destruct (from_path_zero_rate (parts p) w Hz)
      as (e & He & Hnum & Hdiv).
    exists e. split; [|split; [exact Hnum|exact Hdiv]].
    unfold VideoReader_init, bind.
    destruct (from_path (parts p) w) as [[md|e'|] w0]; cbn [fst] in *;
      try discriminate.
    injection He as ->. reflexivity.
  - intros r w1 [r2 w2] Hinit Henter.
    unfold VideoReader_init, bind, ret in Hinit.
    destruct (from_path (parts p) w) as [[md|e'|] w0] eqn:Hfp;
      try discriminate.
    injection Hinit as <- <-.
    destruct (from_path_rate _ _ _ _ Hfp) as [Hrate Hnz].
    cbn [metadata]. fold rate in Hrate. rewrite Hrate in Hnz.
    split; [exact Hrate|]. split; [exact Hnz|].
    destruct (enter_reader _ _ _ Henter) as [c Hc]. cbn [fst snd] in *.
    subst r2. exists c. split; [reflexivity|].
    set (r := {| path_ := parts p; interval := Some i; start_time := st;
                 metadata := md; cap := None |}).
    split.
    + intros Hnf.
      destruct (get_steps_nonfinite (set_cap (Some c) r) i fi eq_refl Hfi)
        as (e & He & Hcase).
      { cbn [metadata set_cap r]. rewrite Hrate. exact Hnf. }
      exists e. split; [exact Hcase|]. split; [exact He|].
      split; [apply extract_frames_raises, He|].
      split; [apply gen_first_pull; reflexivity|].
      split.
      * intros c' w'.
        exact (gen_resumed_raises (set_cap (Some c') r) i e w' eq_refl He).
      * intros fuel.
        exact (gen_list_raises_late (set_cap (Some c) r) c i e w2 fuel
                 eq_refl eq_refl He).
    + intros Hs0. split; [apply extract_frames_zero_step, Hs0|].
      intros g c' w'.
      apply (gen_next_no_error_zero_step (set_cap (Some c') r) c' i w' g
               eq_refl eq_refl Hs0).
Qed.

End WithBackend.

(** C2 does not hold as stated.  A video whose rate is reported as NaN,
    read with an interval of 1 in the session that
    [with VideoReader(path, 1)] starts: batch extraction raises
    [ValueError]; the generator raises nothing on its first pull and
    yields the first frame, the [ValueError] comes with the second pull;
    on a video without frames it ends without any error.  With a rate of
    0 no reader is built: the constructor raises [ZeroDivisionError]. *)
Lemma invalid_frame_rate_counterexample :
  (exists r w1 s,
      VideoReader_init (PStr Ref.clip) (Some (PyInt 1)) (PyInt 0)
        (Ref.world S754_nan [10; 11]%nat) = (Ok r, w1)
      /\ enter (r, w1) = (Ok tt, s)
      /\ is_finite (fps (metadata r)) = false
      /\ fst (extract_frames s) = Err ValueError
      /\ fst (gen_next GenCreated s) = Ok (Yielded 10%nat, GenSuspended)
      /\ fst (gen_list 5 GenCreated s) = Err ValueError)
  /\ (exists r w1 s,
        VideoReader_init (PStr Ref.clip) (Some (PyInt 1)) (PyInt 0)
          (Ref.world S754_nan []) = (Ok r, w1)
        /\ enter (r, w1) = (Ok tt, s)
        /\ fst (gen_list 5 GenCreated s) = Ok [])
  /\ fst (VideoReader_init (PStr Ref.clip) (Some (PyInt 1)) (PyInt 0)
            (Ref.world (S754_zero false) [10; 11]%nat))
     = Err ZeroDivisionError.
Proof.
  split; [|split].
  - eexists _, _, _. split; [reflexivity|]. split; [reflexivity|].
    repeat split; reflexivity.
  - eexists _, _, _. split; [reflexivity|]. split; reflexivity.
  - reflexivity.
Qed.

Lemma invalid_frame_rate_witness :
  fst (VideoReader_init (PStr Ref.clip) (Some (PyInt 1)) (PyInt 0)
         (Ref.world (S754_zero false) [10; 11]%nat))
  = Err ZeroDivisionError
  /\ (forall r w1 s,
        VideoReader_init (PStr Ref.clip) (Some (PyInt 1)) (PyInt 0)
          (Ref.world S754_nan [10; 11]%nat) = (Ok r, w1) ->
        enter (r, w1) = (Ok tt, s) ->
        exists e, (e = ValueError \/ e = OverflowError)
                  /\ extract_frames s = (Err e, s))
  /\ (forall r w1 s,
        VideoReader_init (PStr Ref.clip) (Some (PyInt 1)) (PyInt 0)
          (Ref.world (f64 1 (-1)) [10; 11]%nat) = (Ok r, w1) ->
        enter (r, w1) = (Ok tt, s) ->
        extract_frames s = (Err ValueError, s)).
Proof.
  split; [|split].
  - destruct (invalid_frame_rate (PStr Ref.clip) (PyInt 1) (f64 1 0) (PyInt 0)
                (Ref.world (S754_zero false) [10; 11]%nat) eq_refl)
      as [Hzero _].
    destruct (Hzero eq_refl) as (e & He & _ & Hdiv).
    rewrite He. f_equal. apply (Hdiv 2 (f64 2 0)); reflexivity.
  - intros r w1 s Hinit Henter.
    destruct (invalid_frame_rate (PStr Ref.clip) (PyInt 1) (f64 1 0) (PyInt 0)
                (Ref.world S754_nan [10; 11]%nat) eq_refl)
      as [_ Hbuilt].
    destruct (Hbuilt r w1 s Hinit Henter) as (_ & _ & c & _ & Hnf & _).
    destruct (Hnf eq_refl) as (e & Hcase & _ & Hex & _).
    exists e. split; [exact Hcase|exact Hex].
  - intros r w1 s Hinit Henter.
    destruct (invalid_frame_rate (PStr Ref.clip) (PyInt 1) (f64 1 0) (PyInt 0)
                (Ref.world (f64 1 (-1)) [10; 11]%nat) eq_refl)
      as [_ Hbuilt].
    destruct (Hbuilt r w1 s Hinit Henter) as (_ & _ & c & _ & _ & Hzero).
    injection Hinit as <- _.
    exact (proj1 (Hzero eq_refl)).
Defined.

End ZeroRate.

(** ** The iterator of [cvision/io/video_reader.py] *)

Module IoReader.
Import PyNum Model.

Section WithBackend.
Context `{B : Backend}.

(** When the read gives no frame, [__next__] returns [None]. *)
Lemma io_next_failed_read (r : IoVideoReader) (c : Cap) (w : World) :
  io_cap r = Some c ->
  fst (cv_read c) = None ->
  fst (io_next (r, w)) = Ok (Yielded None).
Proof.
  intros Hc Hread. unfold io_next. rewrite Hc.
  destruct (cv_read c) as [fr c']. simpl in Hread. subst fr. reflexivity.
Qed.

(** C5, on the code: [io.VideoReader.__next__] never signals the end of
    the sequence, whatever the state: a failed read makes it return
    [None] as one more item. *)
Theorem io_next_never_stops (s : IoRS) :
  fst (io_next s) <> Ok StopIteration.
Proof.
  destruct s as [r w]. unfold io_next.
  destruct (io_cap r) as [c|]; [|discriminate].
  destruct (cv_read c) as [[f|] c']; discriminate.
Qed.

End WithBackend.

(** The failing input on the reference backend: a video of one frame.
    The pulls after the first go on returning [None]. *)
Example io_next_past_the_end :
  let w := Ref.world (f64 30 0) [10%nat] in
  let r := IoVideoReader_init Ref.clip in
  fst ((io_enter ;;; io_pulls 4)%py (r, w))
  = Ok [Yielded (Some 10%nat); Yielded None; Yielded None; Yielded None].
Proof. vm_compute. reflexivity. Qed.

End IoReader.

(** ** The collection: [cvision/video/video.py] *)

Module Collection.
Import PyNum Model.

Section WithBackend.
Context `{B : Backend}.

(** C10: a single path is stored as the one-element list of it, so the
    collection built from [p] is the collection built from [[p]], and
    [save_frames] and [extract_frames] cannot tell them apart. *)
Theorem Video_init_single_path (p : pathlike) :
  paths (Video_init (OnePath p)) = [p]
  /\ Video_init (OnePath p) = Video_init (PathList [p])
  /\ (forall fuel out iv fmt w,
        save_frames fuel (Video_init (OnePath p)) out iv fmt w
        = save_frames fuel (Video_init (PathList [p])) out iv fmt w)
  /\ (forall iv w,
        Video_extract_frames (Video_init (OnePath p)) iv w
        = Video_extract_frames (Video_init (PathList [p])) iv w).
Proof. repeat split. Qed.

End WithBackend.
End Collection.

(** ** The scoped session: [__enter__], [__exit__], [with] *)

Module Session.
Import PyNum Model ModelFacts.

Section WithBackend.
Context `{B : Backend}.

(** [__exit__] on a reader that holds a handle: the handle is released,
    the exception, if any, is printed, and the value returned is falsy. *)
Lemma exit_releases (exc : option exn) (r : VideoReader) (c : Cap) (w : World) :
  cap r = Some c ->
  exit exc (r, w)
  = (Ok false,
     (set_cap (Some (cv_release c)) r,
      w_append (ERelease :: match exc with
                            | Some e => [EPrint e]
                            | None => []
                            end) w)).
Proof.
  intros Hc. unfold exit. unfold bind at 1. rewrite Hc.
  rewrite (cap_release_Some r c w Hc).
  destruct exc as [e|].
  - unfold bind, in_world, w_emit, ret. rewrite w_append_app. reflexivity.
  - reflexivity.
Qed.

(** [__enter__] always leaves a handle in [self.cap]. *)
Lemma enter_sets_cap (s : RS) : is_Some (cap (fst (snd (enter s)))).
Proof.
  destruct s as [r w]. unfold enter.
  destruct (py_gt0 (start_time r)); [|simpl; eauto].
  unfold bind, lift.
  destruct (py_mul (start_time r) (PyInt 1000)) as [ms|e|]; simpl; eauto.
Qed.

(** C8: in a session whose reader was built and entered, whatever the
    body does, as long as [self.cap] still holds a handle when the body
    ends: when the body returns, the handle is released and the value is
    returned; when the body raises, the handle is released, the error is
    printed and the same error reaches the caller.  And whenever batch
    extraction returns, on a full run or after a failed read, its last
    call has released the handle. *)
Theorem session_releases {A : Type}
    (mk : M World VideoReader) (body : M RS A)
    (w w1 : World) (r : VideoReader) (s2 : RS) :
  mk w = (Ok r, w1) ->
  enter (r, w1) = (Ok tt, s2) ->
  is_Some (cap (fst (snd (body s2)))) ->
  with_reader mk body w
  = match fst (body s2) with
    | Ok a => (Ok (Some a), w_append [ERelease] (snd (snd (body s2))))
    | Err e => (Err e, w_append [ERelease; EPrint e] (snd (snd (body s2))))
    | Timeout => (Timeout, snd (snd (body s2)))
    end
  /\ forall (r0 : VideoReader) (c0 : Cap) (w0 : World) frames s',
       cap r0 = Some c0 ->
       extract_frames (r0, w0) = (Ok frames, s') ->
       exists c' evs,
         s' = (set_cap (Some (cv_release c')) r0,
               w_append (evs ++ [ERelease]) w0).
Proof.
  intros Hmk Henter [c Hc]. split.
  - unfold with_reader. rewrite Hmk, Henter.
    destruct (body s2) as [[a|e|] [r3 w3]]; simpl in *.
    + rewrite (exit_releases None r3 c w3 Hc). reflexivity.
    + rewrite (exit_releases (Some e) r3 c w3 Hc). reflexivity.
    + reflexivity.
  - intros r0 c0 w0 frames s' Hc0 Hrun.
    unfold extract_frames, self in Hrun. unfold bind at 1 in Hrun.
    cbv beta iota in Hrun. cbn [fst] in Hrun. unfold lift, bind in Hrun.
    destruct (get_steps r0) as [steps|e|]; try discriminate.
    destruct (py_range 0 (frame_count (metadata r0)) steps) as [ids|e|];
      try discriminate.
    destruct (Batch.extract_loop_spec ids [] r0 c0 w0 Hc0)
      as (fr & visited & c' & evs & Hloop & _).
    rewrite Hloop in Hrun.
    rewrite (cap_release_Some (set_cap (Some c') r0) c' _ eq_refl) in Hrun.
    rewrite set_cap_set_cap, w_append_app in Hrun.
    injection Hrun as _ <-. eauto.
Qed.

End WithBackend.

(** A session whose body raises: no interval, batch extraction. *)
Lemma session_releases_witness :
  let w := Ref.world (f64 1 0) [10; 11; 12]%nat in
  exists w',
    with_reader (VideoReader_init (PStr Ref.clip) None (PyInt 0)) extract_frames w
    = (Err TypeError, w')
    /\ last (log w') = Some (EPrint TypeError).
Proof.
  intros w.
  pose (r := Ref.reader (f64 1 0) 3 None None).
  pose (w1 := w_append [EOpen Ref.clip; EGet CAP_PROP_FPS;
                        EGet CAP_PROP_FRAME_COUNT; EGet CAP_PROP_FORMAT;
                        EGet CAP_PROP_FOURCC; EGet CAP_PROP_FRAME_WIDTH;
                        EGet CAP_PROP_FRAME_HEIGHT; ERelease] w).
  pose (s2 := (set_cap (Some (cv_open (fs w1) Ref.clip)) r,
               w_append [EOpen Ref.clip] w1)).
  destruct (session_releases
              (VideoReader_init (PStr Ref.clip) None (PyInt 0)) extract_frames
              w w1 r s2 eq_refl eq_refl (ex_intro _ _ eq_refl)) as [H _].
  eexists. split; [exact H|]. reflexivity.
Defined.

End Session.

(** ** The file system: [Path.mkdir], [cv2.imwrite] *)

Module FsFacts.
Import PyNum Model.

Section WithBackend.
Context `{B : Backend}.

Local Abbreviation FS := (gmap path (node Blob)).



Lemma fs_exists_false (f : FS) (p : path) :
  fs_exists f p = false -> p <> [] /\ f !! p = None.
Proof.
  destruct p as [|x p]; cbn [fs_exists]; [discriminate|].
  intros Hd. apply bool_decide_eq_false in Hd.
  split; [discriminate|]. apply eq_None_not_Some, Hd.
Qed.






Lemma parent_length (p : path) (n : nat) :
  length p = S n -> length (parent p) = n.
Proof.
  intros Hl. unfold parent.
  assert (Hne : p <> []) by (intros ->; discriminate).
  rewrite (app_removelast_last ""%string Hne) in Hl.
  rewrite length_app in Hl. simpl in Hl. lia.
Qed.





End WithBackend.
End FsFacts.

(** ** Saving frames: [Video.save_frames] *)

Module Save.
Import PyNum Model ModelFacts FsFacts Session.

(** Closes a goal [exists evs, log w' = log w ++ evs /\ ...] once the
    run has been reduced to its calls. *)
Ltac close_log :=
  first
    [ solve [ exists []; rewrite app_nil_r; split; [|split]; reflexivity ]
    | solve [ eexists; split;
              [ rewrite <- ?app_assoc; cbn [app]; reflexivity
              | split; reflexivity ] ] ].

Section WithBackend.
Context `{B : Backend}.

Lemma reads_app (e1 e2 : list event) : reads (e1 ++ e2) = reads e1 ++ reads e2.
Proof. unfold reads. apply flat_map_app. Qed.

Lemma writes_app (e1 e2 : list event) : writes (e1 ++ e2) = writes e1 ++ writes e2.
Proof. unfold writes. apply flat_map_app. Qed.





(** Closes [fs w' = fs w /\ exists evs, log w' = log w ++ e :: evs /\ ...]
    on a run reduced to its calls. *)
Ltac close_quiet :=
  split; [reflexivity|];
  eexists; split;
  [ rewrite <- ?app_assoc; cbn [app]; reflexivity
  | split; reflexivity ].

Lemma from_path_quiet (p : path) (w : World) :
  fs (snd (from_path p w)) = fs w
  /\ exists evs,
       log (snd (from_path p w)) = log w ++ EOpen p :: evs
       /\ writes (EOpen p :: evs) = []
       /\ reads (EOpen p :: evs) = [].
Proof.
  unfold from_path, bind, VideoCapture, get_of, lift, w_emit, ret. cbn.
  set (c := cv_open (fs w) p).
  destruct (int_of_float (cv_get CAP_PROP_FRAME_COUNT c)) as [n|e|]; cbn;
    try close_quiet.
  destruct (py_truediv (PyInt n) (PyFloat (cv_get CAP_PROP_FPS c)))
    as [d|e|]; cbn; try close_quiet.
  destruct (int_of_float (cv_get CAP_PROP_FOURCC c)) as [cc|e|]; cbn;
    try close_quiet.
  destruct (int_of_float (cv_get CAP_PROP_FRAME_WIDTH c)) as [wd|e|]; cbn;
    try close_quiet.
  destruct (int_of_float (cv_get CAP_PROP_FRAME_HEIGHT c)) as [ht|e|]; cbn;
    close_quiet.
Qed.

Lemma init_quiet (p : pathlike) (iv : option pynum) (st : pynum) (w : World) :
  fs (snd (VideoReader_init p iv st w)) = fs w
  /\ exists evs,
       log (snd (VideoReader_init p iv st w)) = log w ++ EOpen (parts p) :: evs
       /\ writes (EOpen (parts p) :: evs) = []
       /\ reads (EOpen (parts p) :: evs) = [].
Proof.
  destruct (from_path_quiet (parts p) w) as (Hfs & evs & Hlog & Hw & Hr).
  unfold VideoReader_init, bind, ret.
  destruct (from_path (parts p) w) as [[md|e|] w1]; cbn [fst snd] in *; eauto.
Qed.

Lemma enter_quiet (r : VideoReader) (w : World) :
  fs (snd (snd (enter (r, w)))) = fs w
  /\ exists evs,
       log (snd (snd (enter (r, w)))) = log w ++ evs
       /\ writes evs = []
       /\ reads evs = [].
Proof.
  unfold enter, bind, lift, cap_set, on_cap.
  destruct (py_gt0 (start_time r)); cbn -[py_mul];
    [|split; [reflexivity|close_log]].
  destruct (py_mul (start_time r) (PyInt 1000)) as [ms|e|]; cbn;
    (split; [reflexivity|close_log]).
Qed.



(** *** The frames saved are the frames the generator yields *)













(** *** No method looks at the calls made so far *)












(** *** The file system is what the image writes made of it *)





End WithBackend.

Example save_frames_two_videos :
  let w := Ref.world (f64 1 0) [10; 11; 12]%nat in
  let v := Video_init (PathList [PStr Ref.clip; PPath Ref.clip]) in
  let x := save_frames 10 v (PStr ["out"; "x"]%string) None "png" w in
  fst x = Ok tt
  /\ map fst (writes (log (snd x)))
     = [["out"; "x"; "0.png"]; ["out"; "x"; "1.png"]; ["out"; "x"; "2.png"];
        ["out"; "x"; "0.png"]; ["out"; "x"; "1.png"]; ["out"; "x"; "2.png"]]%string
  /\ map snd (writes (log (snd x))) = [10; 11; 12; 10; 11; 12]%nat.
Proof. vm_compute. repeat split; reflexivity. Qed.


End Save.

(** ** More on the step computation *)

Module StepsMore.
Import PyNum Model PyNumFacts.

Lemma py_mul_float (i : pynum) (fi rate : float) :
  as_float i = Ok fi ->
  py_mul i (PyFloat rate) = Ok (PyFloat (SFmul prec emax fi rate)).
Proof.
  intros Hi. destruct i as [z|f]; simpl in *.
  - rewrite Hi. reflexivity.
  - injection Hi as ->. reflexivity.
Qed.

(** [int()] of a float that is not positive is the ceiling of its exact
    value: the truncation is toward zero. *)
Lemma int_of_float_ceiling (m : positive) (e : Z) :
  int_of_float (S754_finite true m e) = Ok (Qceiling (SF2Q (S754_finite true m e)))
  /\ Qceiling (SF2Q (S754_finite true m e)) <= 0.
Proof.
  pose proof (int_of_float_floor (S754_finite false m e)) as Hf.
  pose proof (SFfloor_nonneg (S754_finite false m e)) as Hn.
  simpl in Hf. injection Hf as Hf.
  assert (Hc : Qceiling (SF2Q (S754_finite true m e))
               = - SFfloor (S754_finite false m e)).
  { unfold Qceiling, SFfloor. f_equal. apply Qfloor_comp.
    unfold SF2Q. apply Qopp_involutive. }
  rewrite Hc. split; [|simpl in Hn; lia].
  unfold int_of_float, cond_Zopp. rewrite Hf. reflexivity.
Qed.

Section WithBackend.
Context `{B : Backend}.

(** X1: with a frame rate that is not finite, both step computations
    raise: [ValueError] on a NaN, [ValueError] or [OverflowError] on an
    infinity; they never return a step. *)
Theorem get_steps_nonfinite_rate
    (r : VideoReader) (v : IoVideo) (i : pynum) (fi : float) :
  interval r = Some i ->
  as_float i = Ok fi ->
  fps (io_metadata v) = fps (metadata r) ->
  is_finite (fps (metadata r)) = false ->
  (get_steps r = Err ValueError \/ get_steps r = Err OverflowError)
  /\ io_get_steps v (Some i) = get_steps r
  /\ (fps (metadata r) = S754_nan -> get_steps r = Err ValueError).
Proof.
  intros Hi Hfi Hv Hnf.
  assert (Hio : io_get_steps v (Some i) = get_steps r).
  { unfold io_get_steps, get_steps. rewrite Hi, Hv. reflexivity. }
  assert (Hg : get_steps r
               = int_of_float (SFmul prec emax fi (fps (metadata r)))).
  { unfold get_steps. rewrite Hi, (py_mul_float i fi _ Hfi). reflexivity. }
  rewrite Hg. split; [|split; [rewrite <- Hg; exact Hio|]].
  - destruct (fps (metadata r)) as [s|s| |s m e]; try discriminate;
      destruct fi as [s'|s'| |s' m' e']; simpl; auto.
  - intros ->. destruct fi; reflexivity.
Qed.

(** X2: with a negative finite interval and a positive finite frame rate
    whose product does not overflow, the step is the product rounded
    toward zero, that is its ceiling, and it is never positive. *)
Theorem get_steps_negative_interval
    (r : VideoReader) (i : pynum) (m : positive) (e : Z) :
  interval r = Some i ->
  as_float i = Ok (S754_finite true m e) ->
  is_pos_finite (fps (metadata r)) = true ->
  is_finite (SFmul prec emax (S754_finite true m e) (fps (metadata r))) = true ->
  let p := SFmul prec emax (S754_finite true m e) (fps (metadata r)) in
  get_steps r = Ok (Qceiling (SF2Q p)) /\ Qceiling (SF2Q p) <= 0.
Proof.
  intros Hi Hfi Hrate Hfin p.
  assert (Hg : get_steps r = int_of_float p).
  { unfold get_steps. rewrite Hi, (py_mul_float i _ _ Hfi). reflexivity. }
  rewrite Hg. fold p in Hfin.
  assert (Hs : match p with
               | S754_zero s | S754_infinity s | S754_finite s _ _ => s = true
               | S754_nan => False
               end).
  { subst p. destruct (fps (metadata r)) as [| | |[] mb eb]; try discriminate.
    simpl. apply (binary_round_aux_sign true (Zpos (m * mb)) (e + eb) loc_Exact).
    lia. }
  clearbody p. clear Hg.
  destruct p as [s|s| |s m' e']; try discriminate.
  - split; [reflexivity|]. vm_compute. discriminate.
  - subst s. apply int_of_float_ceiling.
Qed.

End WithBackend.

Lemma get_steps_nonfinite_rate_witness :
  get_steps (Ref.reader (S754_infinity false) 10 (Some (PyInt 1)) None)
  = Err OverflowError
  /\ get_steps (Ref.reader S754_nan 10 (Some (PyInt 1)) None) = Err ValueError.
Proof.
  destruct (get_steps_nonfinite_rate
              (Ref.reader (S754_infinity false) 10 (Some (PyInt 1)) None)
              (Ref.io_video (S754_infinity false) 10) (PyInt 1) (f64 1 0)
              eq_refl eq_refl eq_refl eq_refl) as ([H|H] & _ & _).
  - discriminate H.
  - split; [exact H|].
    apply (get_steps_nonfinite_rate
             (Ref.reader S754_nan 10 (Some (PyInt 1)) None)
             (Ref.io_video S754_nan 10) (PyInt 1) (f64 1 0)
             eq_refl eq_refl eq_refl eq_refl).
    reflexivity.
Defined.

Lemma get_steps_negative_interval_witness :
  get_steps (Ref.reader (f64 30 0) 10 (Some (PyFloat (f64 (-1) (-1)))) None)
  = Ok (-15).
Proof.
  destruct (get_steps_negative_interval
              (Ref.reader (f64 30 0) 10 (Some (PyFloat (f64 (-1) (-1)))) None)
              (PyFloat (f64 (-1) (-1))) 4503599627370496 (-53)
              eq_refl eq_refl eq_refl eq_refl) as [H _].
  exact H.
Defined.

End StepsMore.

(** ** More on batch extraction *)

Module BatchMore.
Import PyNum Model ModelFacts Batch.

Section WithBackend.
Context `{B : Backend}.

Lemma extract_loop_leading (I : Cap -> Prop) (frame_at : Z -> option Frame)
    (ids : list Z) :
  seekable_on I frame_at ->
  forall (acc : list Frame) (r : VideoReader) (c : Cap) (w : World),
    cap r = Some c ->
    I c ->
    fst (extract_loop ids acc (r, w)) = Ok (acc ++ leading_frames frame_at ids).
Proof.
  intros (Hset & Hread & Hlaw). induction ids as [|i ids IH];
    intros acc r c w Hc HI.
  - simpl. rewrite app_nil_r. reflexivity.
  - cbn [extract_loop leading_frames]. unfold bind at 1.
    rewrite (cap_set_Some _ _ r c w Hc). unfold bind at 1.
    set (c1 := cv_set CAP_PROP_POS_FRAMES (PyInt i) c).
    rewrite (cap_read_Some (set_cap (Some c1) r) c1 _ eq_refl), set_cap_set_cap.
    assert (Hfa : fst (cv_read c1) = frame_at i) by apply (Hlaw c i HI).
    rewrite Hfa.
    destruct (frame_at i) as [f|].
    + rewrite (IH (acc ++ [f]) (set_cap (Some (snd (cv_read c1))) r)
                 (snd (cv_read c1)) _ eq_refl (Hread _ (Hset _ _ _ HI))),
        <- app_assoc.
      reflexivity.
    + rewrite app_nil_r. reflexivity.
Qed.

Lemma extract_frames_run (r : VideoReader) (w : World) (step : Z) (ids : list Z) :
  get_steps r = Ok step ->
  py_range 0 (frame_count (metadata r)) step = Ok ids ->
  extract_frames (r, w)
  = (frames <- extract_loop ids [] ;; cap_release ;;; ret frames)%py (r, w).
Proof.
  intros Hs Hr. unfold extract_frames, self. unfold bind at 1.
  cbv beta iota. cbn [fst]. unfold lift. unfold bind at 1. rewrite Hs.
  unfold bind at 1. rewrite Hr. reflexivity.
Qed.

(** Batch extraction over the indices [ids] its range gives: the frames
    of the leading readable indices. *)
Lemma extract_frames_ids
    (I : Cap -> Prop) (frame_at : Z -> option Frame)
    (r : VideoReader) (c : Cap) (w : World) (step : Z) (ids : list Z) :
  seekable_on I frame_at ->
  I c ->
  cap r = Some c ->
  get_steps r = Ok step ->
  py_range 0 (frame_count (metadata r)) step = Ok ids ->
  fst (extract_frames (r, w)) = Ok (leading_frames frame_at ids).
Proof.
  intros Hlaw HI Hc Hs Hr.
  rewrite (extract_frames_run r w step ids Hs Hr).
  unfold bind at 1.
  pose proof (extract_loop_leading I frame_at ids Hlaw [] r c w Hc HI) as Hrun.
  destruct (extract_loop_spec ids [] r c w Hc)
    as (fr & visited & c' & evs & Hloop & _).
  rewrite Hloop in Hrun |- *. cbn [fst] in Hrun. injection Hrun as Hfr.
  unfold bind.
  rewrite (cap_release_Some (set_cap (Some c') r) c' _ eq_refl).
  unfold ret. cbn [fst app]. rewrite Hfr. reflexivity.
Qed.

(** X3: on a backend where a read after a seek to [i] gives the frame
    of index [i], batch extraction with a positive step returns the
    frames of the candidate indices [0, step, 2*step, ...] below the
    frame count, in that order, up to the first one that cannot be
    read. *)
Theorem extract_frames_leading
    (I : Cap -> Prop) (frame_at : Z -> option Frame)
    (r : VideoReader) (c : Cap) (w : World) (step : Z) :
  seekable_on I frame_at ->
  I c ->
  cap r = Some c ->
  get_steps r = Ok step ->
  0 < step ->
  0 <= frame_count (metadata r) ->
  fst (extract_frames (r, w))
  = Ok (leading_frames frame_at (candidates (frame_count (metadata r)) step)).
Proof.
  intros Hlaw HI Hc Hs Hpos Hcount.
  pose proof (py_range_candidates (frame_count (metadata r)) step Hpos Hcount)
    as Hrange.
  exact (extract_frames_ids I frame_at r c w step _ Hlaw HI Hc Hs Hrange).
Qed.

(** X4: when the step reaches the frame count, index 0 is the only
    candidate: batch extraction returns the first frame alone, or nothing
    if it cannot be read. *)
Theorem extract_frames_single_candidate
    (I : Cap -> Prop) (frame_at : Z -> option Frame)
    (r : VideoReader) (c : Cap) (w : World) (step : Z) :
  seekable_on I frame_at ->
  I c ->
  cap r = Some c ->
  get_steps r = Ok step ->
  0 < frame_count (metadata r) <= step ->
  candidates (frame_count (metadata r)) step = [0]
  /\ fst (extract_frames (r, w))
     = Ok (match frame_at 0 with Some f => [f] | None => [] end).
Proof.
  intros Hlaw HI Hc Hs Hcount.
  assert (Hcand : candidates (frame_count (metadata r)) step = [0]).
  { unfold candidates.
    replace ((frame_count (metadata r) + step - 1) / step) with 1.
    - reflexivity.
    - apply Z.div_unique with (r := frame_count (metadata r) - 1); lia. }
  split; [exact Hcand|].
  assert (Hrange : py_range 0 (frame_count (metadata r)) step = Ok [0]).
  { rewrite <- Hcand. apply py_range_candidates; lia. }
  rewrite (extract_frames_ids I frame_at r c w step [0] Hlaw HI Hc Hs Hrange).
  simpl. destruct (frame_at 0); reflexivity.
Qed.

(** X5: when the range of indices is empty, a negative step with a
    frame count that is not negative or a positive step with a frame
    count that is not positive, batch extraction returns no frame and its
    only call to the backend is the release. *)
Theorem extract_frames_empty_range
    (r : VideoReader) (c : Cap) (w : World) (step : Z) :
  cap r = Some c ->
  get_steps r = Ok step ->
  (step < 0 /\ 0 <= frame_count (metadata r))
  \/ (0 < step /\ frame_count (metadata r) <= 0) ->
  extract_frames (r, w)
  = (Ok [], (set_cap (Some (cv_release c)) r, w_append [ERelease] w)).
Proof.
  intros Hc Hs Hcase.
  assert (Hr : py_range 0 (frame_count (metadata r)) step = Ok []).
  { unfold py_range, range_length.
    destruct (Z.eqb_spec step 0) as [->|_]; [lia|].
    replace ((0 <? step) && (0 <? frame_count (metadata r))) with false
      by (symmetry; apply andb_false_iff;
          rewrite !Z.ltb_ge; lia).
    replace ((step <? 0) && (frame_count (metadata r) <? 0)) with false
      by (symmetry; apply andb_false_iff;
          rewrite !Z.ltb_ge; lia).
    reflexivity. }
  rewrite (extract_frames_run r w step [] Hs Hr).
  unfold bind. cbn [extract_loop ret].
  rewrite (cap_release_Some r c w Hc). reflexivity.
Qed.

End WithBackend.

Lemma extract_frames_leading_witness :
  fst (extract_frames (Ref.entered (f64 2 0) [10; 11; 12; 13; 14]%nat
                                   (Some (PyInt 1))))
  = Ok [10; 12; 14]%nat.
Proof.
  pose (c := Ref.open (Ref.disk (f64 2 0) [10; 11; 12; 13; 14]%nat) Ref.clip).
  assert (HI : Ref.c_frames c = [10; 11; 12; 13; 14]%nat /\ Ref.c_open c = true)
    by (split; reflexivity).
  exact (extract_frames_leading _ _
           (fst (Ref.entered (f64 2 0) [10; 11; 12; 13; 14]%nat (Some (PyInt 1))))
           c _ 2 (Ref_seekable [10; 11; 12; 13; 14]%nat) HI
           eq_refl eq_refl eq_refl ltac:(vm_compute; discriminate)).
Defined.

Lemma extract_frames_single_candidate_witness :
  fst (extract_frames (Ref.entered (f64 2 0) [10; 11; 12]%nat
                                   (Some (PyInt 5))))
  = Ok [10%nat].
Proof.
  pose (c := Ref.open (Ref.disk (f64 2 0) [10; 11; 12]%nat) Ref.clip).
  assert (HI : Ref.c_frames c = [10; 11; 12]%nat /\ Ref.c_open c = true)
    by (split; reflexivity).
  exact (proj2 (extract_frames_single_candidate _ _
                  (fst (Ref.entered (f64 2 0) [10; 11; 12]%nat (Some (PyInt 5))))
                  c _ 10 (Ref_seekable [10; 11; 12]%nat) HI
                  eq_refl eq_refl
                  ltac:(split; [reflexivity|vm_compute; discriminate]))).
Defined.

Lemma extract_frames_empty_range_witness :
  fst (extract_frames (Ref.entered (f64 2 0) [10; 11; 12]%nat
                                   (Some (PyInt (-1)))))
  = Ok [].
Proof.
  pose (c := Ref.open (Ref.disk (f64 2 0) [10; 11; 12]%nat) Ref.clip).
  exact (f_equal fst
           (extract_frames_empty_range
              (Ref.reader (f64 2 0) 3 (Some (PyInt (-1))) (Some c)) c
              (Ref.world (f64 2 0) [10; 11; 12]%nat) (-2) eq_refl eq_refl
              ltac:(left; split; [reflexivity|vm_compute; discriminate]))).
Defined.

End BatchMore.

(** ** More on construction: [VideoMetaData.from_path] *)

Module ConstructionMore.
Import PyNum Model ModelFacts Construction.

Section WithBackend.
Context `{B : Backend}.

(** X6: when [from_path] succeeds, the frame rate reported is not a
    zero, the metadata hold the backend's answers, truncated where the
    code applies [int], the duration is [frame_count / fps], the calls
    made are the opening, the six queries and the release of the
    capture, and the file system is as before. *)
Theorem from_path_success (p : path) (w : World) (md : VideoMetaData) (w' : World) :
  from_path p w = (Ok md, w') ->
  let c := cv_open (fs w) p in
  w' = w_append (from_path_calls_ok p) w
  /\ fps md = cv_get CAP_PROP_FPS c
  /\ is_zero (fps md) = false
  /\ int_of_float (cv_get CAP_PROP_FRAME_COUNT c) = Ok (frame_count md)
  /\ py_truediv (PyInt (frame_count md)) (PyFloat (fps md)) = Ok (duration md)
  /\ format md = cv_get CAP_PROP_FORMAT c
  /\ int_of_float (cv_get CAP_PROP_FOURCC c) = Ok (fourcc md)
  /\ int_of_float (cv_get CAP_PROP_FRAME_WIDTH c) = Ok (width md)
  /\ int_of_float (cv_get CAP_PROP_FRAME_HEIGHT c) = Ok (height md).
Proof.
  unfold from_path, bind, VideoCapture, get_of, lift, w_emit, ret. cbn.
  set (c := cv_open (fs w) p).
  destruct (int_of_float (cv_get CAP_PROP_FRAME_COUNT c)) as [n|e|];
    cbn; try discriminate.
  destruct (py_truediv (PyInt n) (PyFloat (cv_get CAP_PROP_FPS c)))
    as [d|e|] eqn:Hd; cbn; try discriminate.
  destruct (int_of_float (cv_get CAP_PROP_FOURCC c)) as [cc|e|];
    cbn; try discriminate.
  destruct (int_of_float (cv_get CAP_PROP_FRAME_WIDTH c)) as [wd|e|];
    cbn; try discriminate.
  destruct (int_of_float (cv_get CAP_PROP_FRAME_HEIGHT c)) as [ht|e|];
    cbn; try discriminate.
  intros [= <- <-]. cbn.
  split.
  { unfold w_append, from_path_calls_ok. cbn. rewrite <- !app_assoc. reflexivity. }
  repeat split; try reflexivity; try exact Hd.
  unfold py_truediv, as_float, rbind in Hd.
  destruct (float_of_int n); try discriminate.
  destruct (is_zero (cv_get CAP_PROP_FPS c)); [discriminate|reflexivity].
Qed.

(** X7: when [from_path] raises, the capture it opened is not released:
    its calls start with the opening and contain no release. *)
Theorem from_path_error_leaks (p : path) (w : World) (e : exn) (w' : World) :
  from_path p w = (Err e, w') ->
  exists evs,
    w' = w_append (EOpen p :: evs) w
    /\ count_of is_release evs = 0%nat
    /\ count_of is_open evs = 0%nat
    /\ numeric_error e.
Proof.
  unfold from_path, bind, VideoCapture, get_of, lift, w_emit, ret. cbn.
  set (c := cv_open (fs w) p).
  destruct (int_of_float (cv_get CAP_PROP_FRAME_COUNT c)) as [n|e1|] eqn:H1; cbn.
  2:{ intros [= <- <-]. eexists. split; [|split; [|split]].
      - unfold w_append. cbn. rewrite <- !app_assoc. reflexivity.
      - reflexivity.
      - reflexivity.
      - eapply int_of_float_error, H1. }
  2:{ discriminate. }
  destruct (py_truediv (PyInt n) (PyFloat (cv_get CAP_PROP_FPS c)))
    as [d|e1|] eqn:H2; cbn.
  2:{ intros [= <- <-]. eexists. split; [|split; [|split]].
      - unfold w_append. cbn. rewrite <- !app_assoc. reflexivity.
      - reflexivity.
      - reflexivity.
      - eapply py_truediv_error, H2. }
  2:{ discriminate. }
  destruct (int_of_float (cv_get CAP_PROP_FOURCC c)) as [cc|e1|] eqn:H3; cbn.
  2:{ intros [= <- <-]. eexists. split; [|split; [|split]].
      - unfold w_append. cbn. rewrite <- !app_assoc. reflexivity.
      - reflexivity.
      - reflexivity.
      - eapply int_of_float_error, H3. }
  2:{ discriminate. }
  destruct (int_of_float (cv_get CAP_PROP_FRAME_WIDTH c)) as [wd|e1|] eqn:H4; cbn.
  2:{ intros [= <- <-]. eexists. split; [|split; [|split]].
      - unfold w_append. cbn. rewrite <- !app_assoc. reflexivity.
      - reflexivity.
      - reflexivity.
      - eapply int_of_float_error, H4. }
  2:{ discriminate. }
  destruct (int_of_float (cv_get CAP_PROP_FRAME_HEIGHT c)) as [ht|e1|] eqn:H5; cbn.
  2:{ intros [= <- <-]. eexists. split; [|split; [|split]].
      - unfold w_append. cbn. rewrite <- !app_assoc. reflexivity.
      - reflexivity.
      - reflexivity.
      - eapply int_of_float_error, H5. }
  2:{ discriminate. }
  discriminate.
Qed.

End WithBackend.

Lemma from_path_success_witness :
  let w := Ref.world (f64 30 0) [10; 11; 12]%nat in
  exists md,
    fst (from_path Ref.clip w) = Ok md
    /\ fps md = f64 30 0 /\ is_zero (fps md) = false.
Proof.
  intros w.
  assert (Hrun : from_path Ref.clip w
                 = (Ok (Ref.meta (f64 30 0) 3),
                    w_append (from_path_calls_ok Ref.clip) w)) by reflexivity.
  destruct (from_path_success Ref.clip w _ _ Hrun) as (_ & Hfps & Hz & _).
  exists (Ref.meta (f64 30 0) 3).
  split; [rewrite Hrun; reflexivity|]. split; [reflexivity|exact Hz].
Defined.

Lemma from_path_error_leaks_witness :
  let w := Ref.world (S754_zero false) [10; 11; 12]%nat in
  exists evs,
    from_path Ref.clip w = (Err ZeroDivisionError, w_append (EOpen Ref.clip :: evs) w)
    /\ count_of is_release evs = 0%nat.
Proof.
  intros w.
  assert (Hrun : from_path Ref.clip w
                 = (Err ZeroDivisionError,
                    w_append [EOpen Ref.clip; EGet CAP_PROP_FPS;
                              EGet CAP_PROP_FRAME_COUNT] w)) by reflexivity.
  destruct (from_path_error_leaks Ref.clip w _ _ Hrun) as (evs & Hw & Hrel & _).
  exists evs. split; [rewrite Hrun, Hw; reflexivity|exact Hrel].
Defined.

End ConstructionMore.

(** ** More on the generator *)

Module GeneratorMore.
Import PyNum Model ModelFacts Generator.

Section WithBackend.
Context `{B : Backend}.

Lemma count_of_app (p : event -> bool) (e1 e2 : list event) :
  count_of p (e1 ++ e2) = (count_of p e1 + count_of p e2)%nat.
Proof. unfold count_of. rewrite List.filter_app, length_app. reflexivity. Qed.

(** One pull when no interval is set: either a frame is read and
    yielded, or the generator ends; no seek in either case. *)
Lemma gen_next_None (g : gen_state) (r : VideoReader) (c : Cap) (w : World) :
  interval r = None ->
  cap r = Some c ->
  (exists f,
      fst (cv_read c) = Some f
      /\ gen_next g (r, w)
         = (Ok (Yielded f, GenSuspended),
            (set_cap (Some (snd (cv_read c))) r,
             w_append [EIsOpened; ERead (Some f)] w)))
  \/ (exists co evs,
         gen_next g (r, w)
         = (Ok (StopIteration, GenClosed),
            (set_cap (Some co) r, w_append evs w))
         /\ count_of is_seek evs = 0%nat
         /\ reads evs = []
         /\ writes evs = []).
Proof.
  intros Hi Hc.
  assert (Hloop :
    (exists f,
        fst (cv_read c) = Some f
        /\ gen_loop (r, w)
           = (Ok (Yielded f, GenSuspended),
              (set_cap (Some (snd (cv_read c))) r,
               w_append [EIsOpened; ERead (Some f)] w)))
    \/ (exists co evs,
           gen_loop (r, w)
           = (Ok (StopIteration, GenClosed),
              (set_cap (Some co) r, w_append evs w))
           /\ count_of is_seek evs = 0%nat
           /\ reads evs = []
           /\ writes evs = [])).
  { destruct (cv_isOpened c) eqn:Hopen.
    - pose proof (gen_loop_open r c [] w Hc Hopen) as Hrun.
      rewrite w_append_nil in Hrun. rewrite Hrun. unfold read_frame.
      destruct (fst (cv_read c)) as [f|] eqn:Hread.
      + left. exists f. split; reflexivity.
      + right. exists (snd (cv_read c)), [EIsOpened; ERead None].
        repeat split; reflexivity.
    - right. exists c, [EIsOpened].
      rewrite (gen_loop_closed r c w Hc Hopen), (set_cap_same r _ Hc).
      repeat split; reflexivity. }
  assert (Hsusp : gen_next GenSuspended (r, w) = gen_loop (r, w)).
  { cbn [gen_next]. unfold bind. rewrite (gen_resume_None r w Hi). reflexivity. }
  destruct g.
  - exact Hloop.
  - rewrite Hsusp. exact Hloop.
  - cbn [gen_next]. right. exists c, []. unfold ret.
    rewrite w_append_nil, (set_cap_same r _ Hc). repeat split; reflexivity.
Qed.

Lemma gen_list_None (fuel : nat) :
  forall (g : gen_state) (r : VideoReader) (c : Cap) (w : World),
    interval r = None ->
    cap r = Some c ->
    exists co evs,
      snd (gen_list fuel g (r, w)) = (set_cap (Some co) r, w_append evs w)
      /\ count_of is_seek evs = 0%nat
      /\ writes evs = []
      /\ forall frames, fst (gen_list fuel g (r, w)) = Ok frames ->
                        reads evs = frames.
Proof.
  induction fuel as [|fuel IH]; intros g r c w Hi Hc.
  - exists c, []. cbn. rewrite w_append_nil, (set_cap_same r _ Hc).
    repeat split; try reflexivity. discriminate.
  - destruct (gen_next_None g r c w Hi Hc)
      as [(f & Hread & Hn)|(co & evs & Hn & Hseek & Hr & Hw)].
    + assert (Hstep :
        gen_list (S fuel) g (r, w)
        = (rest <- gen_list fuel GenSuspended ;; ret (f :: rest))%py
            (set_cap (Some (snd (cv_read c))) r,
             w_append [EIsOpened; ERead (Some f)] w)).
      { cbn [gen_list]. unfold bind at 1. rewrite Hn. reflexivity. }
      rewrite Hstep. clear Hstep.
      destruct (IH GenSuspended (set_cap (Some (snd (cv_read c))) r)
                  (snd (cv_read c)) (w_append [EIsOpened; ERead (Some f)] w)
                  Hi eq_refl) as (co & evs & Hsnd & Hseek & Hw & Hfr).
      unfold bind.
      destruct (gen_list fuel GenSuspended
                  (set_cap (Some (snd (cv_read c))) r,
                   w_append [EIsOpened; ERead (Some f)] w))
        as [[rest|e|] s'] eqn:Hrun; cbn [fst snd] in *; subst s';
        exists co, ([EIsOpened; ERead (Some f)] ++ evs);
        rewrite set_cap_set_cap, w_append_app;
        (split; [reflexivity|]);
        rewrite count_of_app, Save.writes_app, Hseek, Hw;
        (split; [reflexivity|]); (split; [reflexivity|]);
        try discriminate.
      intros frames [= <-]. rewrite Save.reads_app, (Hfr rest eq_refl).
      reflexivity.
    + assert (Hstep :
        gen_list (S fuel) g (r, w)
        = (Ok [], (set_cap (Some co) r, w_append evs w))).
      { cbn [gen_list]. unfold bind. rewrite Hn. reflexivity. }
      rewrite Hstep. exists co, evs. cbn [fst snd].
      split; [reflexivity|]. split; [exact Hseek|]. split; [exact Hw|].
      intros frames [= <-]. exact Hr.
Qed.

(** X8: with no interval, consuming the generator never seeks: whatever
    the number of pulls, the calls it makes contain no [set], it writes
    nothing, and the frames it yields are the frames it read, in that
    order. *)
Theorem generator_None_never_seeks
    (fuel : nat) (g : gen_state) (r : VideoReader) (c : Cap) (w : World)
    (frames : list Frame) (s' : RS) :
  interval r = None ->
  cap r = Some c ->
  gen_list fuel g (r, w) = (Ok frames, s') ->
  exists evs,
    snd s' = w_append evs w
    /\ count_of is_seek evs = 0%nat
    /\ writes evs = []
    /\ reads evs = frames.
Proof.
  intros Hi Hc Hrun.
  destruct (gen_list_None fuel g r c w Hi Hc) as (co & evs & Hsnd & Hseek & Hw & Hfr).
  rewrite Hrun in Hsnd, Hfr. cbn [fst snd] in *.
  exists evs. rewrite Hsnd. cbn [snd].
  split; [reflexivity|]. split; [exact Hseek|]. split; [exact Hw|].
  apply Hfr. reflexivity.
Qed.

(** X9: with no interval, on a stream that runs out, consuming the
    generator ends: with more pulls allowed than the stream has frames
    left, it returns, and with at most that many frames. *)
Theorem generator_None_terminates
    (mu : Cap -> nat) (fuel : nat) (g : gen_state)
    (r : VideoReader) (c : Cap) (w : World) :
  drains mu ->
  interval r = None ->
  cap r = Some c ->
  (mu c < fuel)%nat ->
  exists frames s',
    gen_list fuel g (r, w) = (Ok frames, s')
    /\ (length frames <= mu c)%nat.
Proof.
  intros Hd. revert g r c w.
  induction fuel as [|fuel IH]; intros g r c w Hi Hc Hlt; [lia|].
  cbn [gen_list]. unfold bind at 1.
  destruct (gen_next_None g r c w Hi Hc)
    as [(f & Hread & ->)|(co & evs & -> & _)].
  - assert (Hmu : (mu (snd (cv_read c)) < mu c)%nat).
    { apply Hd. rewrite Hread. eauto. }
    destruct (IH GenSuspended (set_cap (Some (snd (cv_read c))) r)
                (snd (cv_read c)) (w_append [EIsOpened; ERead (Some f)] w)
                Hi eq_refl ltac:(lia)) as (rest & s' & Hrun & Hlen).
    exists (f :: rest), s'. unfold bind. rewrite Hrun.
    split; [reflexivity|]. simpl. lia.
  - eexists [], _. split; [reflexivity|]. simpl. lia.
Qed.

End WithBackend.

(** On the reference backend the frames left are those from the
    position on. *)
Lemma Ref_drains :
  @drains Ref.backend
    (fun c => Z.to_nat (Z.of_nat (length (Ref.c_frames c)) - Ref.c_pos c)).
Proof.
  intros c [f Hf]. simpl in *. unfold Ref.read in *.
  destruct (Ref.c_open c); [|discriminate].
  destruct (nth_error (Ref.c_frames c) (Z.to_nat (Ref.c_pos c))) eqn:Hn;
    [|discriminate].
  assert (Hlt : (Z.to_nat (Ref.c_pos c) < length (Ref.c_frames c))%nat)
    by (apply nth_error_Some; congruence).
  simpl. lia.
Qed.

Lemma generator_None_never_seeks_witness :
  let s := Ref.entered (f64 25 0) [10; 11; 12]%nat None in
  exists evs : list (@event Ref.backend),
    fst (gen_list 5 GenCreated s) = Ok [10; 11; 12]%nat
    /\ count_of is_seek evs = 0%nat
    /\ reads evs = [10; 11; 12]%nat.
Proof.
  intros s.
  destruct (gen_list 5 GenCreated s) as [res s'] eqn:Hrun.
  assert (Hres : res = Ok [10; 11; 12]%nat).
  { change res with (fst (res, s')). rewrite <- Hrun. reflexivity. }
  subst res.
  destruct (generator_None_never_seeks 5 GenCreated (fst s)
              (Ref.open (Ref.disk (f64 25 0) [10; 11; 12]%nat) Ref.clip)
              (snd s) _ s' eq_refl eq_refl Hrun)
    as (evs & _ & Hseek & _ & Hreads).
  exists evs. split; [reflexivity|]. split; [exact Hseek|exact Hreads].
Defined.

Lemma generator_None_terminates_witness :
  let s := Ref.entered (f64 25 0) [10; 11; 12]%nat None in
  exists frames s',
    gen_list 4 GenCreated s = (Ok frames, s') /\ (length frames <= 3)%nat.
Proof.
  intros s.
  exact (generator_None_terminates _ 4 GenCreated (fst s)
           (Ref.open (Ref.disk (f64 25 0) [10; 11; 12]%nat) Ref.clip)
           (snd s) Ref_drains eq_refl eq_refl ltac:(vm_compute; lia)).
Defined.

End GeneratorMore.

(** ** The io package: [io.Video.extract_frames], [io.Video.save_frames] *)

Module IoMore.
Import PyNum Model ModelFacts Batch.

Section WithBackend.
Context `{B : Backend}.

Lemma io_extract_loop_leading (I : Cap -> Prop) (frame_at : Z -> option Frame)
    (ids : list Z) :
  seekable_on I frame_at ->
  forall (acc : list Frame) (p : path) (c : Cap) (w : World),
    I c ->
    exists c' evs,
      io_extract_loop ids acc ({| io_path := p; io_cap := Some c |}, w)
      = (Ok (acc ++ leading_frames frame_at ids),
         ({| io_path := p; io_cap := Some c' |}, w_append evs w))
      /\ count_of is_release evs = 0%nat
      /\ count_of is_open evs = 0%nat.
Proof.
  intros (Hset & Hread & Hlaw).
  induction ids as [|i ids IH]; intros acc p c w HI.
  - exists c, []. cbn. rewrite app_nil_r, w_append_nil. repeat split.
  - cbn [io_extract_loop leading_frames]. unfold bind, io_on_cap. cbn.
    set (c1 := cv_set CAP_PROP_POS_FRAMES (PyInt i) c).
    assert (Hfa : fst (cv_read c1) = frame_at i) by apply (Hlaw c i HI).
    destruct (cv_read c1) as [fr c2] eqn:Hrd. cbn in Hfa. subst fr.
    assert (HI2 : I c2).
    { replace c2 with (snd (cv_read c1)) by (rewrite Hrd; reflexivity).
      apply Hread, Hset, HI. }
    destruct (frame_at i) as [f|]; cbn.
    + destruct (IH (acc ++ [f]) p c2
                  (w_append [ERead (Some f)]
                     (w_append [ESet CAP_PROP_POS_FRAMES (PyInt i)] w)) HI2)
        as (c' & evs & Hrun & Hrel & Hop).
      exists c', ([ESet CAP_PROP_POS_FRAMES (PyInt i); ERead (Some f)] ++ evs).
      rewrite Hrun, !w_append_app, <- !app_assoc.
      split; [reflexivity|]. unfold count_of in *. cbn. auto.
    + exists c2, [ESet CAP_PROP_POS_FRAMES (PyInt i); ERead None].
      unfold ret. rewrite app_nil_r, w_append_app.
      split; [reflexivity|]. split; reflexivity.
Qed.

(** [io.Video.extract_frames] over the indices [ids] its range gives. *)
Lemma IoVideo_extract_frames_ids
    (I : Cap -> Prop) (frame_at : Z -> option Frame)
    (v : IoVideo) (stepsize : option pynum) (step : Z) (ids : list Z)
    (w : World) :
  seekable_on I frame_at ->
  I (cv_open (fs w) (io_vpath v)) ->
  io_get_steps v stepsize = Ok step ->
  py_range 0 (frame_count (io_metadata v)) step = Ok ids ->
  exists evs,
    IoVideo_extract_frames v stepsize w
    = (Ok (leading_frames frame_at ids),
       w_append (EOpen (io_vpath v) :: evs ++ [ERelease]) w)
    /\ count_of is_release evs = 0%nat
    /\ count_of is_open evs = 0%nat.
Proof.
  intros Hlaw HI Hs Hr.
  unfold IoVideo_extract_frames, lift. unfold bind at 1. rewrite Hs.
  unfold bind at 1. unfold io_with, io_enter, IoVideoReader_init.
  cbn [io_path io_cap]. unfold bind at 1, lift.
  rewrite Hr.
  destruct (io_extract_loop_leading I frame_at ids Hlaw []
              (io_vpath v) (cv_open (fs w) (io_vpath v))
              (w_append [EOpen (io_vpath v)] w) HI)
    as (c' & evs & Hrun & Hrel & Hop).
  rewrite Hrun. unfold io_exit. cbn [io_cap io_path snd fst app ret].
  exists evs. rewrite !w_append_app. split; [reflexivity|]. split; assumption.
Qed.

(** X10: on a backend where a read after a seek to [i] gives the frame
    of index [i], [io.Video.extract_frames] with a positive step returns
    the frames of the candidate indices below the frame count, up to the
    first one that cannot be read; the handle is opened once and released
    once, when the [with] block is left. *)
Theorem IoVideo_extract_frames_leading
    (I : Cap -> Prop) (frame_at : Z -> option Frame)
    (v : IoVideo) (stepsize : option pynum) (step : Z) (w : World) :
  seekable_on I frame_at ->
  I (cv_open (fs w) (io_vpath v)) ->
  io_get_steps v stepsize = Ok step ->
  0 < step ->
  0 <= frame_count (io_metadata v) ->
  exists evs,
    IoVideo_extract_frames v stepsize w
    = (Ok (leading_frames frame_at
             (candidates (frame_count (io_metadata v)) step)),
       w_append (EOpen (io_vpath v) :: evs ++ [ERelease]) w)
    /\ count_of is_release evs = 0%nat
    /\ count_of is_open evs = 0%nat.
Proof.
  intros Hlaw HI Hs Hpos Hcount.
  pose proof (py_range_candidates (frame_count (io_metadata v)) step
                Hpos Hcount) as Hrange.
  exact (IoVideo_extract_frames_ids I frame_at v stepsize step _ w
           Hlaw HI Hs Hrange).
Qed.

(** X11: with no step size the step is 1: [io.Video.extract_frames]
    goes through the indices [0, 1, 2, ...] below the frame count. *)
Theorem IoVideo_extract_frames_every_frame
    (I : Cap -> Prop) (frame_at : Z -> option Frame) (v : IoVideo) (w : World) :
  seekable_on I frame_at ->
  I (cv_open (fs w) (io_vpath v)) ->
  0 <= frame_count (io_metadata v) ->
  fst (IoVideo_extract_frames v None w)
  = Ok (leading_frames frame_at
          (map Z.of_nat (seq 0 (Z.to_nat (frame_count (io_metadata v)))))).
Proof.
  intros Hlaw HI Hcount.
  destruct (IoVideo_extract_frames_ids I frame_at v None 1 _ w Hlaw HI
              eq_refl
              (py_range_candidates (frame_count (io_metadata v)) 1
                 ltac:(lia) Hcount)) as (evs & Hrun & _).
  rewrite Hrun. cbn [fst]. f_equal. f_equal. unfold candidates.
  replace ((frame_count (io_metadata v) + 1 - 1) / 1)
    with (frame_count (io_metadata v)) by (rewrite Z.div_1_r; lia).
  apply map_ext. intros k. lia.
Qed.

Lemma io_save_loop_never_returns (imwrite_none : path -> M World bool)
    (out : path) (fmt : string) (fuel : nat) :
  forall (index : nat) (s : IoRS),
    fst (io_save_loop imwrite_none fuel out fmt index s) <> Ok tt.
Proof.
  induction fuel as [|fuel IH]; intros index [r w]; [discriminate|].
  cbn [io_save_loop]. unfold bind at 1, io_next.
  destruct (io_cap r) as [c|]; [|discriminate].
  destruct (cv_read c) as [[f|] c'].
  - unfold bind, io_in_world.
    destruct (imwrite (frame_file out index fmt) f _) as [[b|e|] w2];
      [apply IH|discriminate|discriminate].
  - unfold bind, io_in_world.
    destruct (imwrite_none (frame_file out index fmt) _) as [[b|e|] w2];
      [apply IH|discriminate|discriminate].
Qed.

(** X12: [io.Video.save_frames] never returns normally.  Its iterator
    never signals its end, so the loop over it can only be left by an
    error (or not at all), whatever [cv2.imwrite] does with the [None]
    it is handed after the last frame. *)
Theorem IoVideo_save_frames_never_returns
    (imwrite_none : path -> M World bool) (fuel : nat) (v : IoVideo)
    (output_dir : pathlike) (fmt : string) (w : World) :
  fst (IoVideo_save_frames imwrite_none fuel v output_dir fmt w) <> Ok tt.
Proof.
  unfold IoVideo_save_frames. unfold bind at 1.
  destruct (makedirs (parts output_dir) w) as [[[]|e|] w1];
    [|discriminate|discriminate].
  unfold bind at 1, io_with, io_enter. cbn [IoVideoReader_init io_path].
  pose proof (io_save_loop_never_returns imwrite_none (parts output_dir) fmt
                fuel 0
                ({| io_path := io_vpath v;
                    io_cap := Some (cv_open (fs w1) (io_vpath v)) |},
                 w_append [EOpen (io_vpath v)] w1)) as Hloop.
  destruct (io_save_loop imwrite_none fuel (parts output_dir) fmt 0 _)
    as [[[]|e|] [r3 w3]]; cbn [fst] in Hloop; [congruence| |discriminate].
  unfold io_exit. destruct (io_cap r3); discriminate.
Qed.

End WithBackend.

Lemma IoVideo_extract_frames_leading_witness :
  let w := Ref.world (f64 2 0) [10; 11; 12; 13; 14]%nat in
  fst (IoVideo_extract_frames (Ref.io_video (f64 2 0) 5) (Some (PyInt 1)) w)
  = Ok [10; 12; 14]%nat.
Proof.
  intros w.
  assert (HI : Ref.c_frames (cv_open (fs w) Ref.clip) = [10; 11; 12; 13; 14]%nat
               /\ Ref.c_open (cv_open (fs w) Ref.clip) = true)
    by (split; reflexivity).
  destruct (IoVideo_extract_frames_leading _ _
              (Ref.io_video (f64 2 0) 5) (Some (PyInt 1)) 2 w
              (Batch.Ref_seekable [10; 11; 12; 13; 14]%nat) HI
              eq_refl eq_refl ltac:(vm_compute; discriminate))
    as (evs & Hrun & _).
  rewrite Hrun. reflexivity.
Defined.

Lemma IoVideo_extract_frames_every_frame_witness :
  let w := Ref.world (f64 2 0) [10; 11; 12]%nat in
  fst (IoVideo_extract_frames (Ref.io_video (f64 2 0) 3) None w)
  = Ok [10; 11; 12]%nat.
Proof.
  intros w.
  assert (HI : Ref.c_frames (cv_open (fs w) Ref.clip) = [10; 11; 12]%nat
               /\ Ref.c_open (cv_open (fs w) Ref.clip) = true)
    by (split; reflexivity).
  exact (IoVideo_extract_frames_every_frame _ _ (Ref.io_video (f64 2 0) 3) w
           (Batch.Ref_seekable [10; 11; 12]%nat) HI
           ltac:(vm_compute; discriminate)).
Defined.

End IoMore.

(** ** More on sessions and on the collection *)

Module CollectionMore.
Import PyNum Model ModelFacts Batch Session Save GeneratorMore.

Section WithBackend.
Context `{B : Backend}.

Lemma extract_loop_reads (ids : list Z) :
  forall (acc : list Frame) (r : VideoReader) (c : Cap) (w : World),
    cap r = Some c ->
    exists c' evs,
      extract_loop ids acc (r, w)
      = (Ok (acc ++ reads evs), (set_cap (Some c') r, w_append evs w))
      /\ writes evs = []
      /\ count_of is_open evs = 0%nat
      /\ count_of is_release evs = 0%nat.
Proof.
  induction ids as [|i ids IH]; intros acc r c w Hc.
  - exists c, []. cbn. unfold ret.
    rewrite app_nil_r, w_append_nil, (set_cap_same r _ Hc). repeat split.
  - cbn [extract_loop]. unfold bind at 1.
    rewrite (cap_set_Some _ _ r c w Hc). unfold bind at 1.
    set (c1 := cv_set CAP_PROP_POS_FRAMES (PyInt i) c).
    rewrite (cap_read_Some (set_cap (Some c1) r) c1 _ eq_refl),
      set_cap_set_cap, w_append_app.
    destruct (fst (cv_read c1)) as [f|].
    + destruct (IH (acc ++ [f]) (set_cap (Some (snd (cv_read c1))) r)
                  (snd (cv_read c1))
                  (w_append ([ESet CAP_PROP_POS_FRAMES (PyInt i)] ++
                             [ERead (Some f)]) w) eq_refl)
        as (c' & evs & Hrun & Hw & Hop & Hrel).
      exists c', ([ESet CAP_PROP_POS_FRAMES (PyInt i); ERead (Some f)] ++ evs).
      rewrite Hrun, set_cap_set_cap, w_append_app, <- !app_assoc.
      split; [reflexivity|]. unfold count_of in *. cbn. auto.
    + exists (snd (cv_read c1)), [ESet CAP_PROP_POS_FRAMES (PyInt i); ERead None].
      unfold ret. cbn. rewrite app_nil_r. repeat split.
Qed.

(** What a call of [extract_frames] on an entered reader leaves,
    whatever way it ends. *)
Lemma extract_frames_footprint (r : VideoReader) (c : Cap) (w : World) :
  cap r = Some c ->
  (exists e, extract_frames (r, w) = (Err e, (r, w)))
  \/ (exists c' evs,
         extract_frames (r, w)
         = (Ok (reads evs),
            (set_cap (Some (cv_release c')) r, w_append (evs ++ [ERelease]) w))
         /\ writes evs = []
         /\ count_of is_open evs = 0%nat
         /\ count_of is_release evs = 0%nat).
Proof.
  intros Hc.
  destruct (get_steps r) as [steps|e|] eqn:Hs.
  2:{ left. exists e. unfold extract_frames, self, bind, lift. cbn [fst].
      rewrite Hs. reflexivity. }
  2:{ exfalso. unfold get_steps in Hs. destruct (interval r); [|discriminate].
      destruct (py_mul p (PyFloat (fps (metadata r)))) as [[z|f]|e|] eqn:Hm;
        simpl in Hs; try discriminate.
      - destruct f; discriminate.
      - unfold py_mul in Hm. destruct p as [z|f]; simpl in Hm.
        + destruct (float_of_int z) eqn:Hz; simpl in Hm; try discriminate.
          eapply Construction.float_of_int_no_timeout, Hz.
        + discriminate. }
  destruct (py_range 0 (frame_count (metadata r)) steps) as [ids|e|] eqn:Hr.
  2:{ left. exists e. unfold extract_frames, self, bind, lift. cbn [fst].
      rewrite Hs, Hr. reflexivity. }
  2:{ unfold py_range in Hr. destruct (steps =? 0); discriminate. }
  right.
  destruct (extract_loop_reads ids [] r c w Hc) as (c' & evs & Hrun & Hw & Hop & Hrel).
  exists c', evs.
  rewrite (BatchMore.extract_frames_run r w steps ids Hs Hr).
  unfold bind. rewrite Hrun.
  rewrite (cap_release_Some (set_cap (Some c') r) c' _ eq_refl).
  rewrite set_cap_set_cap, w_append_app. unfold ret. cbn [app].
  split; [reflexivity|]. split; [exact Hw|]. split; assumption.
Qed.

(** X13: whenever batch extraction returns, the frames it returns are
    the frames its reads gave, in that order; it has written nothing and
    opened nothing, and the release of the handle is its last call and
    its only release. *)
Theorem extract_frames_returns_reads
    (r : VideoReader) (c : Cap) (w : World) (frames : list Frame) (s' : RS) :
  cap r = Some c ->
  extract_frames (r, w) = (Ok frames, s') ->
  exists evs,
    snd s' = w_append (evs ++ [ERelease]) w
    /\ reads evs = frames
    /\ writes evs = []
    /\ count_of is_open evs = 0%nat
    /\ count_of is_release evs = 0%nat.
Proof.
  intros Hc Hrun.
  destruct (extract_frames_footprint r c w Hc)
    as [(e & He)|(c' & evs & He & Hw & Hop & Hrel)];
    rewrite He in Hrun; [discriminate|].
  injection Hrun as <- <-. exists evs. cbn [snd]. repeat split; assumption.
Qed.

(** X14: a session that runs batch extraction to its end releases its
    handle twice: [extract_frames] releases it, and [__exit__] releases
    it again. *)
Theorem extract_session_releases_twice
    (mk : M World VideoReader) (w w1 : World) (r : VideoReader) (s2 : RS)
    (frames : list Frame) (s3 : RS) :
  mk w = (Ok r, w1) ->
  enter (r, w1) = (Ok tt, s2) ->
  extract_frames s2 = (Ok frames, s3) ->
  exists evs,
    with_reader mk extract_frames w
    = (Ok (Some frames), w_append (evs ++ [ERelease; ERelease]) (snd s2))
    /\ count_of is_release evs = 0%nat.
Proof.
  intros Hmk Henter Hrun.
  pose proof (enter_sets_cap (r, w1)) as [c Hc]. rewrite Henter in Hc.
  destruct s2 as [r2 w2]. cbn [fst snd] in *.
  destruct (extract_frames_footprint r2 c w2 Hc)
    as [(e & He)|(c' & evs & He & _ & _ & Hrel)];
    rewrite He in Hrun; [discriminate|].
  injection Hrun as <- <-.
  exists evs. split; [|exact Hrel].
  unfold with_reader. rewrite Hmk, Henter, He.
  rewrite (exit_releases None (set_cap (Some (cv_release c')) r2)
             (cv_release c') _ eq_refl).
  cbn [snd]. rewrite w_append_app, <- app_assoc. reflexivity.
Qed.

Lemma extract_session_quiet (p : pathlike) (iv : option pynum) (w : World) :
  fs (snd (with_reader (VideoReader_init p iv (PyInt 0)) extract_frames w)) = fs w
  /\ (exists evs,
         log (snd (with_reader (VideoReader_init p iv (PyInt 0))
                               extract_frames w))
         = log w ++ evs
         /\ writes evs = [])
  /\ forall o,
       fst (with_reader (VideoReader_init p iv (PyInt 0)) extract_frames w) = Ok o ->
       exists frames, o = Some frames.
Proof.
  unfold with_reader.
  destruct (init_quiet p iv (PyInt 0) w) as (Hfs0 & evs0 & Hlog0 & Hw0 & _).
  destruct (VideoReader_init p iv (PyInt 0) w) as [[r|e|] w1];
    cbn [fst snd] in *;
    try (split; [exact Hfs0|]; split; [eauto|discriminate]).
  destruct (enter_quiet r w1) as (Hfs1 & evs1 & Hlog1 & Hw1 & _).
  pose proof (enter_sets_cap (r, w1)) as [c Hc].
  destruct (enter (r, w1)) as [[[]|e|] [r2 w2]]; cbn [fst snd] in *;
    try (split; [congruence|]; split; [|discriminate];
         exists ((EOpen (parts p) :: evs0) ++ evs1);
         split; [rewrite Hlog1, Hlog0, <- app_assoc; reflexivity|];
         rewrite Save.writes_app, Hw0, Hw1; reflexivity).
  destruct (extract_frames_footprint r2 c w2 Hc)
    as [(e & ->)|(c' & evs & -> & Hw & _)].
  - rewrite (exit_releases (Some e) r2 c w2 Hc). cbn [fst snd w_append fs log].
    split; [congruence|]. split; [|discriminate].
    exists ((EOpen (parts p) :: evs0) ++ evs1 ++ [ERelease; EPrint e]).
    split; [rewrite Hlog1, Hlog0, <- !app_assoc; reflexivity|].
    rewrite !Save.writes_app, Hw0, Hw1. reflexivity.
  - rewrite (exit_releases None (set_cap (Some (cv_release c')) r2)
               (cv_release c') _ eq_refl).
    cbn [fst snd w_append fs log].
    split; [congruence|]. split; [|intros o [= <-]; eauto].
    exists ((EOpen (parts p) :: evs0) ++ evs1 ++ (evs ++ [ERelease]) ++ [ERelease]).
    split; [rewrite Hlog1, Hlog0, <- !app_assoc; reflexivity|].
    rewrite !Save.writes_app, Hw0, Hw1, Hw. reflexivity.
Qed.

Lemma extract_paths_spec (iv : option pynum) (ps : list pathlike) :
  forall (acc : list (pathlike * list Frame)) (w : World),
    fs (snd (extract_paths ps iv acc w)) = fs w
    /\ (exists evs,
           log (snd (extract_paths ps iv acc w)) = log w ++ evs
           /\ writes evs = [])
    /\ forall res, fst (extract_paths ps iv acc w) = Ok res ->
                   map fst res = map fst acc ++ ps.
Proof.
  induction ps as [|p ps IH]; intros acc w.
  - cbn. split; [reflexivity|]. split.
    + exists []. rewrite app_nil_r. split; reflexivity.
    + intros res [= <-]. rewrite app_nil_r. reflexivity.
  - cbn [extract_paths]. unfold bind.
    destruct (extract_session_quiet p iv w) as (Hfs & (evs & Hlog & Hw) & Hsome).
    destruct (with_reader (VideoReader_init p iv (PyInt 0)) extract_frames w)
      as [[o|e|] w1]; cbn [fst snd] in *;
      try (split; [exact Hfs|]; split; [eauto|discriminate]).
    destruct (Hsome o eq_refl) as [frames ->].
    destruct (IH (acc ++ [(p, frames)]) w1) as (Hfs2 & (evs2 & Hlog2 & Hw2) & Hres).
    split; [congruence|]. split.
    + exists (evs ++ evs2). rewrite Hlog2, Hlog, app_assoc.
      split; [reflexivity|]. rewrite Save.writes_app, Hw, Hw2. reflexivity.
    + intros res Hrun. rewrite (Hres res Hrun), map_app, <- app_assoc.
      reflexivity.
Qed.

(** X15: the collection's [extract_frames] is read-only: whatever way it
    ends, the file system is as before and no image was written; and
    when it returns, its result has one entry per path, in the order of
    the paths. *)
Theorem Video_extract_frames_order (v : Video) (iv : option pynum) (w : World) :
  fs (snd (Video_extract_frames v iv w)) = fs w
  /\ (exists evs,
         log (snd (Video_extract_frames v iv w)) = log w ++ evs
         /\ writes evs = [])
  /\ forall res, fst (Video_extract_frames v iv w) = Ok res ->
                 map fst res = paths v.
Proof. apply (extract_paths_spec iv (paths v) [] w). Qed.

End WithBackend.

Lemma extract_frames_returns_reads_witness :
  let s := Ref.entered (f64 2 0) [10; 11; 12]%nat (Some (PyInt 1)) in
  exists evs : list (@event Ref.backend),
    fst (extract_frames s) = Ok (reads evs)
    /\ count_of is_release evs = 0%nat.
Proof.
  intros s.
  destruct (extract_frames s) as [[frames|e|] s'] eqn:Hrun;
    try (exfalso; assert (Hf : fst (extract_frames s) = Ok [10; 12]%nat)
           by reflexivity; rewrite Hrun in Hf; discriminate Hf).
  destruct (extract_frames_returns_reads (fst s)
              (Ref.open (Ref.disk (f64 2 0) [10; 11; 12]%nat) Ref.clip)
              (snd s) frames s' eq_refl Hrun)
    as (evs & _ & Hr & _ & _ & Hrel).
  exists evs. rewrite Hr. split; [reflexivity|exact Hrel].
Defined.

Lemma extract_session_releases_twice_witness :
  let w := Ref.world (f64 2 0) [10; 11; 12]%nat in
  exists evs w2,
    with_reader (VideoReader_init (PStr Ref.clip) (Some (PyInt 1)) (PyInt 0))
                extract_frames w
    = (Ok (Some [10; 12]%nat), w_append (evs ++ [ERelease; ERelease]) w2).
Proof.
  intros w.
  pose (r := Ref.reader (f64 2 0) 3 (Some (PyInt 1)) None).
  pose (w1 := w_append (from_path_calls_ok Ref.clip) w).
  pose (c := cv_open (fs w1) Ref.clip).
  pose (s2 := (set_cap (Some c) r, w_append [EOpen Ref.clip] w1)).
  destruct (extract_frames s2) as [[frames|e|] s3] eqn:Hrun;
    try (exfalso; assert (Hf : fst (extract_frames s2) = Ok [10; 12]%nat)
           by reflexivity; rewrite Hrun in Hf; discriminate Hf).
  assert (Hfr : frames = [10; 12]%nat).
  { assert (Hf : fst (extract_frames s2) = Ok [10; 12]%nat) by reflexivity.
    rewrite Hrun in Hf. injection Hf as ->. reflexivity. }
  subst frames.
  destruct (extract_session_releases_twice
              (VideoReader_init (PStr Ref.clip) (Some (PyInt 1)) (PyInt 0))
              w w1 r s2 _ s3 eq_refl eq_refl Hrun) as (evs & Hw & _).
  exists evs, (snd s2). exact Hw.
Defined.

End CollectionMore.

(** ** More on the output directory *)

Module FsMore.
Import PyNum Model FsFacts.

Section WithBackend.
Context `{B : Backend}.

Local Abbreviation FS := (gmap path (node Blob)).

Lemma dir_is_entry (f : FS) (p : path) :
  p <> [] -> fs_is_dir f p = true -> f !! p = Some Dir.
Proof.
  destruct p as [|x p]; [congruence|]. intros _ Hd. cbn [fs_is_dir] in Hd.
  revert Hd.
  destruct (f !! _) as [[|b]|]; [reflexivity|discriminate|discriminate].
Qed.

Lemma none_not_dir (f : FS) (p : path) :
  p <> [] -> f !! p = None -> fs_is_dir f p = false /\ fs_exists f p = false.
Proof.
  destruct p as [|x p]; [congruence|]. intros _ Hn.
  cbn [fs_is_dir fs_exists]. split.
  - revert Hn. destruct (f !! _) as [[|b]|]; [discriminate|discriminate|reflexivity].
  - apply bool_decide_eq_false. intros [n Hs]. congruence.
Qed.

Lemma parent_app (q k : path) : k <> [] -> parent (q ++ k) = q ++ parent k.
Proof. intros Hk. unfold parent. apply removelast_app, Hk. Qed.

(** In a well-formed file system everything above an entry is a
    directory. *)
Lemma wf_above (f : FS) (q : path) :
  wf_fs f ->
  forall k, k <> [] -> is_Some (f !! (q ++ k)) -> fs_is_dir f q = true.
Proof.
  intros [Hroot Hwf] k. induction k as [|x k IH] using rev_ind; [congruence|].
  intros _ Hsome. apply Hwf in Hsome.
  rewrite app_assoc in Hsome. unfold parent in Hsome.
  rewrite removelast_last in Hsome.
  destruct k as [|y k]; [rewrite app_nil_r in Hsome; exact Hsome|].
  apply IH; [discriminate|].
  exists Dir. apply dir_is_entry; [destruct q; discriminate|exact Hsome].
Qed.

Lemma prefix_parent (q p : path) :
  q `prefix_of` p -> q <> p -> q `prefix_of` parent p.
Proof.
  intros [k ->] Hne.
  assert (Hk : k <> []) by (intros ->; rewrite app_nil_r in Hne; congruence).
  rewrite (parent_app q k Hk). eexists; reflexivity.
Qed.

(** A regular file at [q] on the way to [p] is not a directory above
    anything, and [p] itself is no directory. *)
Lemma file_blocks (f : FS) (q p : path) (b : Blob) :
  wf_fs f ->
  q `prefix_of` p ->
  f !! q = Some (File b) ->
  fs_is_dir f p = false /\ (fs_exists f p = true -> q = p).
Proof.
  intros Hwf [k ->] Hq.
  assert (Hqne : q <> []) by (intros ->; destruct Hwf as [Hr _]; congruence).
  destruct k as [|x k].
  - rewrite app_nil_r. split; [|reflexivity].
    destruct q as [|y q]; [congruence|]. cbn [fs_is_dir]. rewrite Hq. reflexivity.
  - assert (Hno : f !! (q ++ x :: k) = None).
    { destruct (f !! (q ++ x :: k)) eqn:Hl; [|reflexivity].
      assert (Hd : fs_is_dir f q = true)
        by (apply (wf_above f q Hwf (x :: k)); [discriminate|rewrite Hl; eauto]).
      apply dir_is_entry in Hd; [congruence|exact Hqne]. }
    destruct (none_not_dir f (q ++ x :: k)) as [Hd He];
      [destruct q; discriminate|exact Hno|].
    split; [exact Hd|]. rewrite He. discriminate.
Qed.

Lemma mkdir_parents_blocked (n : nat) :
  forall (f : FS) (q p : path) (b : Blob),
    length p = n ->
    wf_fs f ->
    q `prefix_of` p ->
    f !! q = Some (File b) ->
    mkdir_parents n f p = Err FileExistsError
    \/ mkdir_parents n f p = Err NotADirectoryError.
Proof.
  induction n as [|n IH]; intros f q p b Hlen Hwf Hpre Hq.
  - destruct p; [|discriminate]. destruct Hwf as [Hroot _].
    apply prefix_nil_inv in Hpre. subst q. congruence.
  - destruct (file_blocks f q p b Hwf Hpre Hq) as [Hnd Hex].
    cbn [mkdir_parents]. unfold os_mkdir.
    destruct (fs_exists f p) eqn:He.
    + rewrite Hnd. left. reflexivity.
    + assert (Hne : q <> p).
      { intros ->. apply fs_exists_false in He as [_ Hnone]. congruence. }
      pose proof (prefix_parent q p Hpre Hne) as Hpp.
      destruct (file_blocks f q (parent p) b Hwf Hpp Hq) as [Hpd _].
      rewrite Hpd.
      destruct (fs_exists f (parent p)) eqn:Hpe.
      * rewrite Hnd. right. reflexivity.
      * destruct (IH f q (parent p) b (parent_length p n Hlen) Hwf Hpp Hq)
          as [-> | ->]; [left|right]; reflexivity.
Qed.

(** X16: in a well-formed file system, when the output directory or
    something above it is a regular file, the collection's [save_frames]
    raises [FileExistsError] or [NotADirectoryError] and does nothing
    else: no video is opened and the file system is as before. *)
Theorem save_frames_blocked (fuel : nat) (v : Video) (output_dir : pathlike)
    (iv : option pynum) (fmt : string) (w : World) (q : path) (b : Blob) :
  wf_fs (fs w) ->
  q `prefix_of` parts output_dir ->
  fs w !! q = Some (File b) ->
  save_frames fuel v output_dir iv fmt w = (Err FileExistsError, w)
  \/ save_frames fuel v output_dir iv fmt w = (Err NotADirectoryError, w).
Proof.
  intros Hwf Hpre Hq.
  unfold save_frames, bind, Path_mkdir.
  destruct (mkdir_parents_blocked (length (parts output_dir)) (fs w) q
              (parts output_dir) b eq_refl Hwf Hpre Hq) as [-> | ->];
    [left|right]; reflexivity.
Qed.

End WithBackend.

Lemma save_frames_blocked_witness :
  let w := Ref.world (f64 2 0) [10; 11; 12]%nat in
  save_frames 5 (Video_init (OnePath (PStr Ref.clip)))
              (PStr ["clip.mp4"; "frames"]%string) None "png" w
  = (Err NotADirectoryError, w).
Proof.
  intros w.
  assert (Hwf : wf_fs (fs w)).
  { split; [reflexivity|]. intros p [n Hn]. subst w.
    unfold Ref.world, Ref.disk in Hn. cbn [fs] in Hn.
    apply lookup_singleton_Some in Hn as [<- _]. reflexivity. }
  destruct (save_frames_blocked 5 (Video_init (OnePath (PStr Ref.clip)))
              (PStr ["clip.mp4"; "frames"]%string) None "png" w
              Ref.clip (Ref.BVideo (f64 2 0) [10; 11; 12]%nat) Hwf
              ltac:(exists ["frames"%string]; reflexivity) eq_refl)
    as [H|H]; [|exact H].
  exfalso.
  assert (Hr : fst (save_frames 5 (Video_init (OnePath (PStr Ref.clip)))
                      (PStr ["clip.mp4"; "frames"]%string) None "png" w)
               = Err NotADirectoryError) by reflexivity.
  rewrite H in Hr. discriminate Hr.
Defined.

End FsMore.
